(** * confluent_cloud_sdk.confluent_iam_v2: service accounts and API keys

    A shallow embedding of [src/confluent_cloud_sdk/confluent_iam_v2.py]:
    the three classes [IamV2Object], [ServiceAccount] and [ApiKey], their
    properties and methods, and the facts about them.

    Layout:
    - [PyValue]: the Python values the module handles (what [json()] hands
      back, and what ends up in the attributes), with truthiness, [==],
      [str()], subscripting, iteration, [str.title] and [str.replace];
    - [Effects]: exceptions, the HTTP client, and the state-and-exception
      monad the methods run in;
    - [IamV2]: the classes;
    - the theorems. *)

From Stdlib Require Import String Ascii List ZArith Bool Arith Lia DecimalString.
Import ListNotations.

Set Warnings "-register-all".
Local Open Scope list_scope.
Local Open Scope string_scope.

(* ===================================================================== *)
(** ** Python values *)
(* ===================================================================== *)

Module PyValue.

(** What [json.loads] produces: [None], booleans, integers, strings, lists
    and dicts with string keys.  Floats are left out.  A dict is kept as
    the list of its items in insertion order; Python dicts hold each key
    once, and [assoc] returns the first binding of a key.  A string is
    kept as the bytes of its UTF-8 encoding, so a string of ASCII
    characters is a string of bytes below 128. *)
Inductive value : Type :=
| PyNone : value
| PyBool : bool -> value
| PyInt : Z -> value
| PyStr : string -> value
| PyList : list value -> value
| PyDict : list (string * value) -> value.

Fixpoint assoc {A : Type} (k : string) (kvs : list (string * A)) : option A :=
  match kvs with
  | [] => None
  | (k', v) :: rest => if String.eqb k k' then Some v else assoc k rest
  end.

(** [bool(v)]: the test made by [if v:] and [not v]. *)
Definition truthy (v : value) : bool :=
  match v with
  | PyNone => false
  | PyBool b => b
  | PyInt n => negb (Z.eqb n 0)
  | PyStr s => negb (String.eqb s "")
  | PyList l => match l with [] => false | _ => true end
  | PyDict d => match d with [] => false | _ => true end
  end.

(** [a == b].  [True == 1] and [False == 0] hold in Python; dicts compare
    without regard to the order of their items. *)
Fixpoint py_eq (a b : value) {struct a} : bool :=
  match a, b with
  | PyNone, PyNone => true
  | PyBool x, PyBool y => Bool.eqb x y
  | PyBool x, PyInt n => Z.eqb (if x then 1 else 0) n
  | PyInt n, PyBool y => Z.eqb n (if y then 1 else 0)
  | PyInt n, PyInt m => Z.eqb n m
  | PyStr s, PyStr t => String.eqb s t
  | PyList xs, PyList ys =>
      (fix all2 (xs : list value) (ys : list value) {struct xs} : bool :=
         match xs, ys with
         | [], [] => true
         | x :: xs', y :: ys' => py_eq x y && all2 xs' ys'
         | _, _ => false
         end) xs ys
  | PyDict d, PyDict e =>
      Nat.eqb (List.length d) (List.length e) &&
      (fix sub (d : list (string * value)) {struct d} : bool :=
         match d with
         | [] => true
         | (k, v) :: d' =>
             match assoc k e with
             | Some w => py_eq v w && sub d'
             | None => false
             end
         end) d
  | _, _ => false
  end.

(** *** [repr] and [str] *)

Definition quote1 : ascii := ascii_of_nat 39.
Definition quote2 : ascii := ascii_of_nat 34.
Definition backslash : ascii := ascii_of_nat 92.

Definition hex_digit (n : nat) : ascii :=
  ascii_of_nat (if (n <? 10)%nat then 48 + n else 87 + n).

Fixpoint contains_char (c : ascii) (s : string) : bool :=
  match s with
  | EmptyString => false
  | String c' r => Ascii.eqb c c' || contains_char c r
  end.

(** One character inside a string literal quoted with [q].  Characters
    above 127 are taken as printable. *)
Definition repr_char (q c : ascii) : string :=
  let n := nat_of_ascii c in
  if Ascii.eqb c q || Ascii.eqb c backslash then String backslash (String c "")
  else if (n =? 9)%nat then String backslash "t"
  else if (n =? 10)%nat then String backslash "n"
  else if (n =? 13)%nat then String backslash "r"
  else if (n <? 32)%nat || (n =? 127)%nat
       then String backslash (String "x" (String (hex_digit (n / 16))
                                            (String (hex_digit (n mod 16)) "")))
  else String c "".

Fixpoint repr_chars (q : ascii) (s : string) : string :=
  match s with
  | EmptyString => EmptyString
  | String c r => repr_char q c ++ repr_chars q r
  end.

(** [repr(s)] for a string: single quotes, unless the string has a single
    quote and no double quote. *)
Definition repr_str (s : string) : string :=
  let q := if contains_char quote1 s && negb (contains_char quote2 s)
           then quote2 else quote1 in
  String q (repr_chars q s ++ String q "").

Definition str_int (n : Z) : string := NilZero.string_of_int (Z.to_int n).

Fixpoint py_repr (v : value) : string :=
  match v with
  | PyNone => "None"
  | PyBool true => "True"
  | PyBool false => "False"
  | PyInt n => str_int n
  | PyStr s => repr_str s
  | PyList l =>
      "[" ++
      (fix items (l : list value) : string :=
         match l with
         | [] => ""
         | [x] => py_repr x
         | x :: ((_ :: _) as r) => py_repr x ++ ", " ++ items r
         end) l
      ++ "]"
  | PyDict d =>
      "{" ++
      (fix items (d : list (string * value)) : string :=
         match d with
         | [] => ""
         | [(k, x)] => repr_str k ++ ": " ++ py_repr x
         | (k, x) :: ((_ :: _) as r) =>
             repr_str k ++ ": " ++ py_repr x ++ ", " ++ items r
         end) d
      ++ "}"
  end.

(** [str(v)], which is what [f"{v}"] inserts. *)
Definition py_str (v : value) : string :=
  match v with
  | PyStr s => s
  | _ => py_repr v
  end.

(** *** [str.title] and [str.replace] *)

Definition is_lower (c : ascii) : bool :=
  let n := nat_of_ascii c in (97 <=? n)%nat && (n <=? 122)%nat.
Definition is_upper (c : ascii) : bool :=
  let n := nat_of_ascii c in (65 <=? n)%nat && (n <=? 90)%nat.
Definition is_cased (c : ascii) : bool := is_lower c || is_upper c.
Definition to_upper (c : ascii) : ascii :=
  if is_lower c then ascii_of_nat (nat_of_ascii c - 32) else c.
Definition to_lower (c : ascii) : ascii :=
  if is_upper c then ascii_of_nat (nat_of_ascii c + 32) else c.

(** CPython's loop, as it runs on ASCII characters: a character that
    follows a cased one is lowered, any other is put in title case. *)
Fixpoint title_from (previous_is_cased : bool) (s : string) : string :=
  match s with
  | EmptyString => EmptyString
  | String c r =>
      String (if previous_is_cased then to_lower c else to_upper c)
             (title_from (is_cased c) r)
  end.

Definition title_ascii (s : string) : string := title_from false s.

Fixpoint is_ascii (s : string) : bool :=
  match s with
  | EmptyString => true
  | String c r => (nat_of_ascii c <? 128)%nat && is_ascii r
  end.

(** Beyond ASCII, [str.title] goes by the case tables of Unicode.  They
    belong to Python, not to this module, and are a parameter here: what
    [title] gives on a string that is not all ASCII.  Title-casing may
    lengthen a string (one letter can become two); it never empties
    one. *)
Class CaseTables : Type := {
  title_unicode : string -> string;
  title_unicode_nonempty :
    forall s, s <> EmptyString -> title_unicode s <> EmptyString
}.

(** [s.title()]. *)
Definition title `{CaseTables} (s : string) : string :=
  if is_ascii s then title_ascii s else title_unicode s.

Fixpoint intersperse (new : string) (s : string) : string :=
  match s with
  | EmptyString => new
  | String c r => new ++ String c (intersperse new r)
  end.

(** [skip] counts the characters of a found occurrence still to drop. *)
Fixpoint replace_from (old new : string) (skip : nat) (s : string) : string :=
  match s with
  | EmptyString => EmptyString
  | String c r =>
      match skip with
      | S k => replace_from old new k r
      | O =>
          if String.prefix old s
          then new ++ replace_from old new (String.length old - 1) r
          else String c (replace_from old new 0 r)
      end
  end.

(** [s.replace(old, new)]: every occurrence, left to right, not
    overlapping. *)
Definition replace (old new s : string) : string :=
  match old with
  | EmptyString => intersperse new s
  | _ => replace_from old new 0 s
  end.

End PyValue.

(* ===================================================================== *)
(** ** Exceptions, the HTTP client, and the monad of the methods *)
(* ===================================================================== *)

Module Effects.
Import PyValue.

Inductive exn : Type :=
| AttributeError : string -> exn
| KeyError : string -> exn
| TypeError : exn
| OtherError : string -> exn.

Inductive result (A : Type) : Type :=
| Ok : A -> result A
| Raise : exn -> result A.
Arguments Ok {A} _.
Arguments Raise {A} _.

Definition type_name (v : value) : string :=
  match v with
  | PyNone => "NoneType"
  | PyBool _ => "bool"
  | PyInt _ => "int"
  | PyStr _ => "str"
  | PyList _ => "list"
  | PyDict _ => "dict"
  end.

Definition no_attribute {A : Type} (v : value) (attr : string) : result A :=
  Raise (AttributeError
           (String quote1 (type_name v) ++ String quote1 " object has no attribute "
            ++ String quote1 attr ++ String quote1 "")).

(** [v[k]] with a string key [k]. *)
Definition get_item (v : value) (k : string) : result value :=
  match v with
  | PyDict d => match assoc k d with
                | Some x => Ok x
                | None => Raise (KeyError k)
                end
  | _ => Raise TypeError
  end.

Fixpoint chars (s : string) : list value :=
  match s with
  | EmptyString => []
  | String c r => PyStr (String c "") :: chars r
  end.

(** The items [for x in v] runs over. *)
Definition iter (v : value) : result (list value) :=
  match v with
  | PyList l => Ok l
  | PyDict d => Ok (map (fun kv => PyStr (fst kv)) d)
  | PyStr s => Ok (chars s)
  | _ => Raise TypeError
  end.

(** [v.title()]. *)
Definition call_title `{CaseTables} (v : value) : result value :=
  match v with
  | PyStr s => Ok (PyStr (title s))
  | _ => no_attribute v "title"
  end.

(** [v.replace(old, new)]. *)
Definition call_replace (v : value) (old new : string) : result value :=
  match v with
  | PyStr s => Ok (PyStr (replace old new s))
  | _ => no_attribute v "replace"
  end.

(** Modelled from the spec: the injected transport ([ConfluentClient] of
    [client_factory], which this module only imports for type checking).
    It exposes [get(url)], [post(url, data)], [patch(url, data)] and
    [delete(url)], each returning a response that supports [json()], and
    it carries the base URL.  A failing call raises.  What the server
    answers may depend on the requests made before. *)
Inductive Request : Type :=
| GET : value -> Request
| POST : value -> value -> Request
| PATCH : value -> value -> Request
| DELETE : value -> Request.

Record Response : Type := { json : result value }.

Record Client : Type := {
  api_url : string;
  respond : list Request -> Request -> result Response
}.

(** A method runs on its object ([self]) and the requests sent so far.
    An exception leaves both as they were when it was raised. *)
Record World (O : Type) : Type := { w_self : O; w_net : list Request }.
Arguments w_self {O} _.
Arguments w_net {O} _.

Definition M (O A : Type) : Type := World O -> result A * World O.

Definition ret {O A : Type} (a : A) : M O A := fun w => (Ok a, w).

Definition bind {O A B : Type} (m : M O A) (k : A -> M O B) : M O B :=
  fun w => match m w with
           | (Ok a, w') => k a w'
           | (Raise e, w') => (Raise e, w')
           end.

Definition raise {O A : Type} (e : exn) : M O A := fun w => (Raise e, w).

Definition lift {O A : Type} (r : result A) : M O A := fun w => (r, w).

Definition attr {O A : Type} (f : O -> A) : M O A :=
  fun w => (Ok (f (w_self w)), w).

Definition assign {O : Type} (f : O -> O) : M O unit :=
  fun w => (Ok tt, {| w_self := f (w_self w); w_net := w_net w |}).

Definition send {O : Type} (client : Client) (r : Request) : M O Response :=
  fun w => (respond client (w_net w) r,
            {| w_self := w_self w; w_net := (w_net w ++ [r])%list |}).

Module Notations.
Declare Scope py_scope.
Delimit Scope py_scope with py.
Notation "x <- c ;; k" := (bind c (fun x => k))
  (at level 61, c at next level, right associativity) : py_scope.
Notation "c ;; k" := (bind c (fun _ => k))
  (at level 61, right associativity) : py_scope.
End Notations.
Import Notations.
Local Open Scope py_scope.

(** [for x in xs: body x]. *)
Fixpoint for_each {O A : Type} (xs : list A) (body : A -> M O unit) : M O unit :=
  match xs with
  | [] => ret tt
  | x :: rest => body x ;; for_each rest body
  end.

End Effects.

(* ===================================================================== *)
(** ** The classes *)
(* ===================================================================== *)

Module IamV2.
Import PyValue Effects Effects.Notations.
Local Open Scope py_scope.

(** *** Instance attributes *)

Record IamV2Object : Type := {
  _id : value;
  _name : value;
  _description : value;
  _href : value;
  api_path : value
}.

Record ApiKey : Type := {
  ApiKey_super : IamV2Object;
  _resource_id : value;
  _owner_id : value;
  _secret : value
}.

Record ServiceAccount : Type := {
  ServiceAccount_super : IamV2Object;
  _api_keys : list ApiKey
}.

(** Class attributes. *)
Definition api_v2_path : string := "/iam/v2".
Definition api_keys_path : string := api_v2_path ++ "/api-keys".
Definition services_accounts_path : string := api_v2_path ++ "/service-accounts".

(** Attribute assignment, one function per attribute. *)
Definition with_id (v : value) (o : IamV2Object) : IamV2Object :=
  {| _id := v; _name := _name o; _description := _description o;
     _href := _href o; api_path := api_path o |}.
Definition with_name (v : value) (o : IamV2Object) : IamV2Object :=
  {| _id := _id o; _name := v; _description := _description o;
     _href := _href o; api_path := api_path o |}.
Definition with_description (v : value) (o : IamV2Object) : IamV2Object :=
  {| _id := _id o; _name := _name o; _description := v;
     _href := _href o; api_path := api_path o |}.
Definition with_href (v : value) (o : IamV2Object) : IamV2Object :=
  {| _id := _id o; _name := _name o; _description := _description o;
     _href := v; api_path := api_path o |}.
Definition with_api_path (v : value) (o : IamV2Object) : IamV2Object :=
  {| _id := _id o; _name := _name o; _description := _description o;
     _href := _href o; api_path := v |}.

Definition with_resource_id (v : value) (k : ApiKey) : ApiKey :=
  {| ApiKey_super := ApiKey_super k; _resource_id := v;
     _owner_id := _owner_id k; _secret := _secret k |}.
Definition with_owner_id (v : value) (k : ApiKey) : ApiKey :=
  {| ApiKey_super := ApiKey_super k; _resource_id := _resource_id k;
     _owner_id := v; _secret := _secret k |}.
Definition with_secret (v : value) (k : ApiKey) : ApiKey :=
  {| ApiKey_super := ApiKey_super k; _resource_id := _resource_id k;
     _owner_id := _owner_id k; _secret := v |}.
Definition with_api_keys (l : list ApiKey) (a : ServiceAccount) : ServiceAccount :=
  {| ServiceAccount_super := ServiceAccount_super a; _api_keys := l |}.

(** A subclass of [IamV2Object] holds the attributes of the base class. *)
Class Inherits (O : Type) : Type := {
  super : O -> IamV2Object;
  with_super : IamV2Object -> O -> O
}.

#[global] Instance IamV2Object_Inherits : Inherits IamV2Object :=
  {| super := fun o => o; with_super := fun b _ => b |}.

#[global] Instance ApiKey_Inherits : Inherits ApiKey :=
  {| super := ApiKey_super;
     with_super := fun b k =>
       {| ApiKey_super := b; _resource_id := _resource_id k;
          _owner_id := _owner_id k; _secret := _secret k |} |}.

#[global] Instance ServiceAccount_Inherits : Inherits ServiceAccount :=
  {| super := ServiceAccount_super;
     with_super := fun b a =>
       {| ServiceAccount_super := b; _api_keys := _api_keys a |} |}.

(** [self.x = v] for an attribute [x] of the base class. *)
Definition assign_super {O : Type} `{Inherits O}
    (f : value -> IamV2Object -> IamV2Object) (v : value) : M O unit :=
  assign (fun self => with_super (f v (super self)) self).

(** The instance before [__init__] has run.  Attributes not assigned yet
    read as [None] here; every [__init__] below assigns all of them. *)
Definition fresh_IamV2Object : IamV2Object :=
  {| _id := PyNone; _name := PyNone; _description := PyNone;
     _href := PyNone; api_path := PyNone |}.
Definition fresh_ApiKey : ApiKey :=
  {| ApiKey_super := fresh_IamV2Object; _resource_id := PyNone;
     _owner_id := PyNone; _secret := PyNone |}.
Definition fresh_ServiceAccount : ServiceAccount :=
  {| ServiceAccount_super := fresh_IamV2Object; _api_keys := [] |}.

(** [Cls(args)]: run [__init__] on the fresh instance. *)
Definition construct {O : Type} (fresh : O) (init : M O unit) : O :=
  w_self (snd (init {| w_self := fresh; w_net := [] |})).

Section Methods.

Context `{CaseTables}.

(** [self._client]: the objects of one run share the client they were
    built with, and no method assigns it. *)
Variable client : Client.

(** *** class IamV2Object *)

Section Base.
Context {O : Type} `{Inherits O}.

Definition IamV2Object_init (display_name description : value) : M O unit :=
  assign_super with_id PyNone ;;
  assign_super with_name display_name ;;
  assign_super with_description description ;;
  assign_super with_href PyNone ;;
  assign_super with_api_path PyNone.

Definition obj_id : M O value := attr (fun self => _id (super self)).

Definition set_obj_id (id_value : value) : M O unit :=
  assign_super with_id id_value.

Definition href : M O value :=
  h <- attr (fun self => _href (super self)) ;;
  if truthy h then
    attr (fun self => _href (super self))
  else
    p <- attr (fun self => api_path (super self)) ;;
    i <- obj_id ;;
    ret (PyStr (api_url client ++ py_str p ++ "/" ++ py_str i)).

Definition set_href (url : value) : M O unit :=
  assign_super with_href url.

(** [list]; [None] stands for the [None] the method returns when no path
    is configured. *)
Definition list_ : M O (option Response) :=
  p <- attr (fun self => api_path (super self)) ;;
  if truthy p then
    p <- attr (fun self => api_path (super self)) ;;
    r <- send client (GET (PyStr (api_url client ++ py_str p))) ;;
    ret (Some r)
  else
    ret None.

Definition read : M O Response :=
  u <- href ;;
  send client (GET u).

Definition update (description : value) : M O Response :=
  u <- href ;;
  send client (PATCH u (PyDict [("description", description)])).

Definition delete : M O Response :=
  u <- href ;;
  send client (DELETE u).

End Base.

(** *** class ApiKey *)

Definition ApiKey_init
    (obj_id display_name description owner_id resource_id : value)
    : M ApiKey unit :=
  IamV2Object_init display_name description ;;
  assign_super with_id obj_id ;;
  assign (with_resource_id resource_id) ;;
  assign (with_owner_id owner_id) ;;
  assign_super with_href PyNone ;;
  assign_super with_api_path (PyStr api_keys_path) ;;
  assign (with_secret PyNone).

Definition new_ApiKey
    (obj_id display_name description owner_id resource_id : value) : ApiKey :=
  construct fresh_ApiKey
    (ApiKey_init obj_id display_name description owner_id resource_id).

Definition owner_id : M ApiKey value := attr _owner_id.
Definition resource_id : M ApiKey value := attr _resource_id.

Definition ApiKey_create
    (owner_id_arg resource_id_arg display_name description : value)
    : M ApiKey Response :=
  p <- attr (fun self => api_path (super self)) ;;
  let url := PyStr (api_url client ++ py_str p) in
  stored_owner <- owner_id ;;
  (if negb (truthy owner_id_arg) && negb (truthy stored_owner)
   then raise (AttributeError "Owner ID must be specified")
   else ret tt) ;;
  stored_owner <- attr _owner_id ;;
  let owner_id_arg := if truthy owner_id_arg then owner_id_arg else stored_owner in
  stored_resource <- resource_id ;;
  (if negb (truthy resource_id_arg) && negb (truthy stored_resource)
   then raise (AttributeError "Resource ID must be specified")
   else ret tt) ;;
  stored_resource <- resource_id ;;
  let resource_id_arg :=
    if truthy resource_id_arg then resource_id_arg else stored_resource in
  name <- attr (fun self => _name (super self)) ;;
  let display_name :=
    if negb (truthy display_name) && negb (truthy name)
    then PyStr (py_str owner_id_arg ++ "::" ++ py_str resource_id_arg)
    else if negb (truthy display_name) && truthy name
    then name
    else display_name in
  stored_description <- attr (fun self => _description (super self)) ;;
  description <-
    (if negb (truthy description) && negb (truthy stored_description)
     then replaced <- lift (call_replace display_name "::" " ") ;;
          lift (call_title replaced)
     else if negb (truthy description) && truthy stored_description
     then ret stored_description
     else ret description) ;;
  let payload :=
    PyDict [("spec",
             PyDict [("owner", PyDict [("id", owner_id_arg)]);
                     ("resource", PyDict [("id", resource_id_arg)]);
                     ("display_name", display_name);
                     ("description", description)])] in
  req <- send client (POST url payload) ;;
  reply_data <- lift (json req) ;;
  spec <- lift (get_item reply_data "spec") ;;
  new_id <- lift (get_item reply_data "id") ;;
  set_obj_id new_id ;;
  metadata <- lift (get_item reply_data "metadata") ;;
  link <- lift (get_item metadata "self") ;;
  assign_super with_href link ;;
  owner <- lift (get_item spec "owner") ;;
  owner <- lift (get_item owner "id") ;;
  assign (with_owner_id owner) ;;
  resource <- lift (get_item spec "resource") ;;
  resource <- lift (get_item resource "id") ;;
  assign (with_resource_id resource) ;;
  secret <- lift (get_item spec "secret") ;;
  assign (with_secret secret) ;;
  ret req.

(** *** class ServiceAccount *)

Definition ServiceAccount_init (obj_id display_name description : value)
    : M ServiceAccount unit :=
  assign_super with_id obj_id ;;
  assign_super with_href PyNone ;;
  IamV2Object_init display_name description ;;
  assign_super with_api_path (PyStr services_accounts_path) ;;
  assign (with_api_keys []).

Definition new_ServiceAccount (obj_id display_name description : value)
    : ServiceAccount :=
  construct fresh_ServiceAccount
    (ServiceAccount_init obj_id display_name description).

Definition ServiceAccount_create : M ServiceAccount Response :=
  p <- attr (fun self => api_path (super self)) ;;
  let url := PyStr (api_url client ++ py_str p) in
  stored_description <- attr (fun self => _description (super self)) ;;
  description <-
    (if negb (truthy stored_description)
     then name <- attr (fun self => _name (super self)) ;;
          lift (call_title name)
     else attr (fun self => _description (super self))) ;;
  name <- attr (fun self => _name (super self)) ;;
  let payload := PyDict [("display_name", name); ("description", description)] in
  req <- send client (POST url payload) ;;
  payload <- lift (json req) ;;
  metadata <- lift (get_item payload "metadata") ;;
  link <- lift (get_item metadata "self") ;;
  assign_super with_href link ;;
  new_id <- lift (get_item payload "id") ;;
  set_obj_id new_id ;;
  ret req.

Definition import_api_keys : M ServiceAccount unit :=
  i <- obj_id ;;
  let url := PyStr (api_url client ++ api_keys_path ++ "?owner=" ++ py_str i) in
  req <- send client (GET url) ;;
  body <- lift (json req) ;;
  data <- lift (get_item body "data") ;;
  entries <- lift (iter data) ;;
  for_each entries (fun _api_key =>
    key_id <- lift (get_item _api_key "id") ;;
    owner <- obj_id ;;
    spec <- lift (get_item _api_key "spec") ;;
    resource <- lift (get_item spec "resource") ;;
    resource <- lift (get_item resource "id") ;;
    let new_key := new_ApiKey key_id PyNone PyNone owner resource in
    assign (fun self => with_api_keys (_api_keys self ++ [new_key])%list self)).

Definition set_from_read (display_name account_id : value)
    : M ServiceAccount unit :=
  name <- attr (fun self => _name (super self)) ;;
  let display_name := if truthy display_name then display_name else name in
  i <- obj_id ;;
  let account_id := if truthy account_id then account_id else i in
  if truthy account_id then
    set_obj_id account_id ;;
    r <- read ;;
    data <- lift (json r) ;;
    metadata <- lift (get_item data "metadata") ;;
    link <- lift (get_item metadata "self") ;;
    assign_super with_href link ;;
    new_id <- lift (get_item data "id") ;;
    set_obj_id new_id ;;
    d <- lift (get_item data "description") ;;
    assign_super with_description d ;;
    n <- lift (get_item data "display_name") ;;
    assign_super with_name n
  else if negb (truthy account_id) && truthy display_name then
    r <- list_ ;;
    r <- match r with
         | Some r => ret r
         | None => lift (no_attribute PyNone "json")
         end ;;
    body <- lift (json r) ;;
    accounts <- lift (get_item body "data") ;;
    accounts <- lift (iter accounts) ;;
    for_each accounts (fun _account =>
      n <- lift (get_item _account "display_name") ;;
      if py_eq n display_name then
        metadata <- lift (get_item _account "metadata") ;;
        link <- lift (get_item metadata "self") ;;
        assign_super with_href link ;;
        new_id <- lift (get_item _account "id") ;;
        set_obj_id new_id ;;
        d <- lift (get_item _account "description") ;;
        assign_super with_description d ;;
        n <- lift (get_item _account "display_name") ;;
        assign_super with_name n
      else
        ret tt)
  else
    ret tt.

End Methods.

End IamV2.

(* ===================================================================== *)
(** ** Test doubles and call sequences *)
(* ===================================================================== *)

Module Stub.
Import PyValue Effects IamV2.

(** Case tables for the examples, whose text is all ASCII: a string that
    is not is left as it is. *)
Definition ascii_text : CaseTables :=
  {| title_unicode := fun s => s;
     title_unicode_nonempty := fun _ nonempty => nonempty |}.

#[local] Existing Instance ascii_text.

(** A transport that answers every request with the same JSON body. *)
Definition answering (body : value) : Client :=
  {| api_url := "https://x";
     respond := fun _ _ => Ok {| json := Ok body |} |}.

(** A transport whose every call fails. *)
Definition failing : Client :=
  {| api_url := "https://x";
     respond := fun _ _ => Raise (OtherError "ConnectionError") |}.

Definition start {O : Type} (self : O) : World O :=
  {| w_self := self; w_net := [] |}.

(** The reply of the scenario of the spec: the account ["svc-a"] created
    as ["sa-1"]. *)
Definition account_reply : value :=
  PyDict [("id", PyStr "sa-1");
          ("display_name", PyStr "svc-a");
          ("description", PyStr "Svc-a");
          ("metadata", PyDict [("self", PyStr "https://x/sa-1")])].

Definition account_response : Response := {| json := Ok account_reply |}.

Definition svc_a : ServiceAccount :=
  new_ServiceAccount PyNone (PyStr "svc-a") PyNone.

Definition nameless : ServiceAccount :=
  new_ServiceAccount PyNone PyNone PyNone.

(** A listing in which two accounts carry the same display name. *)
Definition first_entry : value :=
  PyDict [("id", PyStr "sa-1");
          ("display_name", PyStr "svc-a");
          ("description", PyStr "first");
          ("metadata", PyDict [("self", PyStr "https://x/sa-1")])].

Definition second_entry : value :=
  PyDict [("id", PyStr "sa-2");
          ("display_name", PyStr "svc-a");
          ("description", PyStr "second");
          ("metadata", PyDict [("self", PyStr "https://x/sa-2")])].

Definition other_entry : value :=
  PyDict [("id", PyStr "sa-3");
          ("display_name", PyStr "svc-b");
          ("description", PyStr "other");
          ("metadata", PyDict [("self", PyStr "https://x/sa-3")])].

Definition accounts : list value := [first_entry; second_entry; other_entry].

Definition accounts_listing : value := PyDict [("data", PyList accounts)].

(** The reply to the creation of a key; the server names the owner in its
    own way. *)
Definition key_reply : value :=
  PyDict [("id", PyStr "k-1");
          ("metadata", PyDict [("self", PyStr "https://x/keys/k-1")]);
          ("spec",
           PyDict [("owner", PyDict [("id", PyStr "sa-000001")]);
                   ("resource", PyDict [("id", PyStr "lkc-000001")]);
                   ("display_name", PyStr "o1::r1");
                   ("description", PyStr "O1 R1");
                   ("secret", PyStr "s3cr3t")])].

Definition key_response : Response := {| json := Ok key_reply |}.

Definition key_o1_r1 : ApiKey :=
  new_ApiKey PyNone PyNone PyNone (PyStr "o1") (PyStr "r1").

Definition key_without_owner : ApiKey :=
  new_ApiKey PyNone PyNone PyNone PyNone (PyStr "r1").

Definition key_after_create : World ApiKey :=
  snd (ApiKey_create (answering key_reply) PyNone PyNone PyNone PyNone
                     (start key_o1_r1)).

(** A key with a link of its own, and one with an id only. *)
Definition key_with_link : ApiKey :=
  w_self (snd (set_href (O := ApiKey) (PyStr "https://x/keys/k-9")
                 (start (new_ApiKey (PyStr "k-9") PyNone PyNone PyNone PyNone)))).

Definition key_with_id : ApiKey :=
  new_ApiKey (PyStr "k-1") PyNone PyNone PyNone PyNone.

(** The account ["sa-1"] and the listing of its two keys. *)
Definition sa_1 : ServiceAccount :=
  w_self (snd (set_obj_id (O := ServiceAccount) (PyStr "sa-1") (start svc_a))).

Definition keys : list value :=
  [PyDict [("id", PyStr "k-1");
           ("spec", PyDict [("resource", PyDict [("id", PyStr "lkc-1")])])];
   PyDict [("id", PyStr "k-2");
           ("spec", PyDict [("resource", PyDict [("id", PyStr "lkc-2")])])]].

Definition keys_listing : value := PyDict [("data", PyList keys)].

End Stub.

Module Calls.
Import PyValue Effects IamV2.

(** The three calls of the base class that talk to the server about one
    object, and what a caller is left with after a series of them, whether
    or not some of them raised. *)
Inductive call : Type :=
| Read : call
| Update : value -> call
| Delete : call.

Definition perform {O : Type} `{Inherits O} (client : Client) (c : call)
    (w : World O) : World O :=
  match c with
  | Read => snd (read client w)
  | Update d => snd (update client d w)
  | Delete => snd (delete client w)
  end.

Definition perform_all {O : Type} `{Inherits O} (client : Client)
    (cs : list call) (w : World O) : World O :=
  fold_left (fun w c => perform client c w) cs w.

End Calls.

(* ===================================================================== *)
(** ** Vocabulary of the statements *)
(* ===================================================================== *)

Module Reading.
Import PyValue Effects Effects.Notations IamV2.
Local Open Scope py_scope.

Section WithClient.

Context `{CaseTables}.
Variable client : Client.

(** What [href] computes when no link is stored. *)
Definition derived_link {O : Type} `{Inherits O} (self : O) : value :=
  PyStr (api_url client ++ py_str (api_path (super self)) ++ "/"
         ++ py_str (_id (super self))).

(** The precedence of the spec, [resolve(explicit, stored, default)]: the
    explicit argument, else the stored attribute, else the default. *)
Definition resolve (explicit stored default : value) : value :=
  if truthy explicit then explicit
  else if truthy stored then stored
  else default.

Definition default_display_name (owner resource : value) : string :=
  py_str owner ++ "::" ++ py_str resource.

Definition default_description (display_name : string) : string :=
  title (replace "::" " " display_name).

Definition create_payload (owner resource display_name description : value)
    : value :=
  PyDict [("spec",
           PyDict [("owner", PyDict [("id", owner)]);
                   ("resource", PyDict [("id", resource)]);
                   ("display_name", display_name);
                   ("description", description)])].

Definition collection_url (b : IamV2Object) : value :=
  PyStr (api_url client ++ py_str (api_path b)).

(** What [ApiKey.create] does with the reply, once the request is out
    (lines 210 to 217 of the source; [ApiKey_create_runs] shows that
    [ApiKey_create] runs it). *)
Definition absorb (req : Response) : M ApiKey Response :=
  reply_data <- lift (json req) ;;
  spec <- lift (get_item reply_data "spec") ;;
  new_id <- lift (get_item reply_data "id") ;;
  set_obj_id new_id ;;
  metadata <- lift (get_item reply_data "metadata") ;;
  link <- lift (get_item metadata "self") ;;
  assign_super with_href link ;;
  owner <- lift (get_item spec "owner") ;;
  owner <- lift (get_item owner "id") ;;
  assign (with_owner_id owner) ;;
  resource <- lift (get_item spec "resource") ;;
  resource <- lift (get_item resource "id") ;;
  assign (with_resource_id resource) ;;
  secret <- lift (get_item spec "secret") ;;
  assign (with_secret secret) ;;
  ret req.

(** An operation that leaves the secret of the key it runs on alone. *)
Definition keeps_secret {A : Type} (m : M ApiKey A) : Prop :=
  forall w, _secret (w_self (snd (m w))) = _secret (w_self w).

(** The payload of [ServiceAccount.create]. *)
Definition account_payload (display_name description : value) : value :=
  PyDict [("display_name", display_name); ("description", description)].

Definition account_description (b : IamV2Object) : value :=
  if truthy (_description b) then _description b
  else PyStr (title (py_str (_name b))).

Definition account_request (b : IamV2Object) : Request :=
  POST (collection_url b)
       (account_payload (_name b) (account_description b)).

(** One entry of the listing of API keys, as [import_api_keys] reads it:
    its ["id"], then its ["spec"]["resource"]["id"]. *)
Definition key_fields (entry : value) : result (value * value) :=
  match get_item entry "id" with
  | Raise e => Raise e
  | Ok key_id =>
      match get_item entry "spec" with
      | Raise e => Raise e
      | Ok spec =>
          match get_item spec "resource" with
          | Raise e => Raise e
          | Ok resource =>
              match get_item resource "id" with
              | Raise e => Raise e
              | Ok resource_id => Ok (key_id, resource_id)
              end
          end
      end
  end.

(** The body of the loop of [import_api_keys]. *)
Definition import_body (_api_key : value) : M ServiceAccount unit :=
  key_id <- lift (get_item _api_key "id") ;;
  owner <- obj_id ;;
  spec <- lift (get_item _api_key "spec") ;;
  resource <- lift (get_item spec "resource") ;;
  resource <- lift (get_item resource "id") ;;
  let new_key := new_ApiKey key_id PyNone PyNone owner resource in
  assign (fun self => with_api_keys (_api_keys self ++ [new_key])%list self).

Definition imported_key (owner : value) (fields : value * value) : ApiKey :=
  new_ApiKey (fst fields) PyNone PyNone owner (snd fields).

(** One entry of the listing of accounts, as [set_from_read] reads it:
    ["metadata"]["self"], ["id"], ["description"], ["display_name"]. *)
Definition account_fields (entry : value)
    : result (value * value * value * value) :=
  match get_item entry "metadata" with
  | Raise e => Raise e
  | Ok metadata =>
      match get_item metadata "self" with
      | Raise e => Raise e
      | Ok link =>
          match get_item entry "id" with
          | Raise e => Raise e
          | Ok new_id =>
              match get_item entry "description" with
              | Raise e => Raise e
              | Ok d =>
                  match get_item entry "display_name" with
                  | Raise e => Raise e
                  | Ok n => Ok (link, new_id, d, n)
                  end
              end
          end
      end
  end.

Definition well_formed (entry : value) : Prop :=
  exists fields, account_fields entry = Ok fields.

(** The test of the loop: [_account["display_name"] == display_name]. *)
Definition matches (display_name entry : value) : bool :=
  match get_item entry "display_name" with
  | Ok n => py_eq n display_name
  | Raise _ => false
  end.

(** The account after its four attributes are taken from an entry. *)
Definition adopted (entry : value) (self : ServiceAccount) : ServiceAccount :=
  match account_fields entry with
  | Ok (link, new_id, d, n) =>
      with_super
        (with_name n (with_description d (with_id new_id
                                            (with_href link (super self)))))
        self
  | Raise _ => self
  end.

Definition first_match (display_name : value) (accounts : list value)
    : option value :=
  find (matches display_name) accounts.

Definition last_match (display_name : value) (accounts : list value)
    : option value :=
  find (matches display_name) (rev accounts).

(** The body of the loop of [set_from_read]. *)
Definition lookup_body (display_name _account : value) : M ServiceAccount unit :=
  n <- lift (get_item _account "display_name") ;;
  if py_eq n display_name then
    metadata <- lift (get_item _account "metadata") ;;
    link <- lift (get_item metadata "self") ;;
    assign_super with_href link ;;
    new_id <- lift (get_item _account "id") ;;
    set_obj_id new_id ;;
    d <- lift (get_item _account "description") ;;
    assign_super with_description d ;;
    n <- lift (get_item _account "display_name") ;;
    assign_super with_name n
  else
    ret tt.

End WithClient.

End Reading.

(* ===================================================================== *)
(** ** Sessions: any series of calls on one object *)
(* ===================================================================== *)

Module Sessions.
Import PyValue Effects IamV2.

(** Everything a caller can invoke on a service account. *)
Inductive account_call : Type :=
| AObjId : account_call
| ASetObjId : value -> account_call
| AHref : account_call
| ASetHref : value -> account_call
| AList : account_call
| ARead : account_call
| AUpdate : value -> account_call
| ADelete : account_call
| ACreate : account_call
| AImportApiKeys : account_call
| ASetFromRead : value -> value -> account_call.

(** Everything a caller can invoke on an API key. *)
Inductive key_call : Type :=
| KObjId : key_call
| KSetObjId : value -> key_call
| KHref : key_call
| KSetHref : value -> key_call
| KOwnerId : key_call
| KResourceId : key_call
| KList : key_call
| KRead : key_call
| KUpdate : value -> key_call
| KDelete : key_call
| KCreate : value -> value -> value -> value -> key_call.

(** The world a call leaves, whether it returned or raised. *)
Definition account_step `{CaseTables} (client : Client) (c : account_call)
    (w : World ServiceAccount) : World ServiceAccount :=
  match c with
  | AObjId => snd (obj_id w)
  | ASetObjId v => snd (set_obj_id v w)
  | AHref => snd (href client w)
  | ASetHref v => snd (set_href v w)
  | AList => snd (list_ client w)
  | ARead => snd (read client w)
  | AUpdate d => snd (update client d w)
  | ADelete => snd (delete client w)
  | ACreate => snd (ServiceAccount_create client w)
  | AImportApiKeys => snd (import_api_keys client w)
  | ASetFromRead n i => snd (set_from_read client n i w)
  end.

Definition key_step `{CaseTables} (client : Client) (c : key_call)
    (w : World ApiKey) : World ApiKey :=
  match c with
  | KObjId => snd (obj_id w)
  | KSetObjId v => snd (set_obj_id v w)
  | KHref => snd (href client w)
  | KSetHref v => snd (set_href v w)
  | KOwnerId => snd (owner_id w)
  | KResourceId => snd (resource_id w)
  | KList => snd (list_ client w)
  | KRead => snd (read client w)
  | KUpdate d => snd (update client d w)
  | KDelete => snd (delete client w)
  | KCreate o r n d => snd (ApiKey_create client o r n d w)
  end.

Definition account_session `{CaseTables} (client : Client) (cs : list account_call)
    (w : World ServiceAccount) : World ServiceAccount :=
  fold_left (fun w c => account_step client c w) cs w.

Definition key_session `{CaseTables} (client : Client) (cs : list key_call)
    (w : World ApiKey) : World ApiKey :=
  fold_left (fun w c => key_step client c w) cs w.

(** A computation keeps a relation between the world it starts in and
    the world it ends in, on every path, the raising ones included. *)
Definition kept {O A : Type} (R : World O -> World O -> Prop) (m : M O A)
    : Prop :=
  forall w, R w (snd (m w)).

(** What no call on an account undoes: its path, the keys it holds, the
    requests already made. *)
Definition account_frame (w w' : World ServiceAccount) : Prop :=
  api_path (super (w_self w')) = api_path (super (w_self w))
  /\ (exists added, _api_keys (w_self w') = (_api_keys (w_self w) ++ added)%list)
  /\ (exists sent, w_net w' = (w_net w ++ sent)%list).

(** What no call on a key changes: its path, its name and description,
    the requests already made. *)
Definition key_frame (w w' : World ApiKey) : Prop :=
  api_path (super (w_self w')) = api_path (super (w_self w))
  /\ _name (super (w_self w')) = _name (super (w_self w))
  /\ _description (super (w_self w')) = _description (super (w_self w))
  /\ (exists sent, w_net w' = (w_net w ++ sent)%list).

End Sessions.

Module Samples.
Import PyValue Effects IamV2 Stub.

#[local] Existing Instance ascii_text.

(** The account of the scenario once created: id and link stored. *)
Definition created_account : World ServiceAccount :=
  snd (ServiceAccount_create (answering account_reply) (start svc_a)).

(** An entry of a listing of accounts that has no display name. *)
Definition unnamed_entry : value :=
  PyDict [("id", PyStr "sa-x");
          ("metadata", PyDict [("self", PyStr "https://x/sa-x")])].

Definition broken_accounts_listing : value :=
  PyDict [("data", PyList [first_entry; unnamed_entry; second_entry])].

(** An entry of a listing of keys that has no ["spec"]. *)
Definition key_entry_k1 : value :=
  PyDict [("id", PyStr "k-1");
          ("spec", PyDict [("resource", PyDict [("id", PyStr "lkc-1")])])].

Definition key_entry_without_spec : value := PyDict [("id", PyStr "k-2")].

Definition broken_keys_listing : value :=
  PyDict [("data", PyList [key_entry_k1; key_entry_without_spec; key_entry_k1])].

(** A reply to the creation of a key that carries no secret. *)
Definition key_reply_without_secret : value :=
  PyDict [("id", PyStr "k-1");
          ("metadata", PyDict [("self", PyStr "https://x/keys/k-1")]);
          ("spec",
           PyDict [("owner", PyDict [("id", PyStr "sa-000001")]);
                   ("resource", PyDict [("id", PyStr "lkc-000001")])])].

(** A reply to the creation of an account that carries no id. *)
Definition account_reply_without_id : value :=
  PyDict [("metadata", PyDict [("self", PyStr "https://x/sa-1")])].

Definition key_without_resource : ApiKey :=
  new_ApiKey PyNone PyNone PyNone (PyStr "o1") PyNone.

End Samples.

(* ===================================================================== *)
(** ** Properties *)
(* ===================================================================== *)

Import PyValue Effects Effects.Notations IamV2 Reading Sessions.
Local Open Scope py_scope.

(** Unfold the monad and the accessors down to matches on the data. *)
Ltac run :=
  cbv beta iota delta
    [bind ret raise lift attr assign assign_super send
     obj_id set_obj_id set_href owner_id resource_id href list_ read update delete]
  in *; cbn [fst snd w_self w_net] in *.

Section Href.

Variable client : Client.
Context {O : Type} `{Inherits O}.

Lemma href_runs (w : World O) :
  href client w =
  (Ok (if truthy (_href (super (w_self w)))
       then _href (super (w_self w)) else derived_link client (w_self w)), w).
Proof.
  run. destruct (truthy (_href (super (w_self w)))); reflexivity.
Qed.

Lemma read_runs (w : World O) :
  exists u, read client w =
            (respond client (w_net w) (GET u),
             {| w_self := w_self w; w_net := (w_net w ++ [GET u])%list |}).
Proof.
  unfold read, bind. rewrite href_runs. unfold send. cbn. eauto.
Qed.

Lemma update_runs (d : value) (w : World O) :
  exists u, update client d w =
            (respond client (w_net w) (PATCH u (PyDict [("description", d)])),
             {| w_self := w_self w;
                w_net := (w_net w ++ [PATCH u (PyDict [("description", d)])])%list |}).
Proof.
  unfold update, bind. rewrite href_runs. unfold send. cbn. eauto.
Qed.

Lemma delete_runs (w : World O) :
  exists u, delete client w =
            (respond client (w_net w) (DELETE u),
             {| w_self := w_self w; w_net := (w_net w ++ [DELETE u])%list |}).
Proof.
  unfold delete, bind. rewrite href_runs. unfold send. cbn. eauto.
Qed.

(** C3.  A stored link (one the getter's test [if self._href] accepts, so
    not [None] and not empty) is returned as it is, whatever the id; with
    no stored link and a string id the result is
    [api_url + api_path + "/" + id]; evaluating [href] changes neither the
    object nor the request log, and a second evaluation gives the same
    value. *)
Theorem href_explicit_or_derived (w : World O) :
  (truthy (_href (super (w_self w))) = true ->
   href client w = (Ok (_href (super (w_self w))), w))
  /\ (forall p i,
        truthy (_href (super (w_self w))) = false ->
        api_path (super (w_self w)) = PyStr p ->
        _id (super (w_self w)) = PyStr i ->
        href client w = (Ok (PyStr (api_url client ++ p ++ "/" ++ i)), w))
  /\ (exists v, href client w = (Ok v, w)
                /\ (href client ;; href client) w = (Ok v, w)).
Proof.
  repeat split.
  - intros E. rewrite href_runs, E. reflexivity.
  - intros p i E Hp Hi. rewrite href_runs, E. unfold derived_link.
    rewrite Hp, Hi. reflexivity.
  - eexists. split; [apply href_runs|].
    unfold bind. rewrite href_runs. apply href_runs.
Qed.

(** C8.  With no stored link and the id [None], [href] raises nothing: it
    returns the string [api_url + api_path + "/None"]. *)
Theorem href_without_id (w : World O) :
  truthy (_href (super (w_self w))) = false ->
  _id (super (w_self w)) = PyNone ->
  href client w =
  (Ok (PyStr (api_url client ++ py_str (api_path (super (w_self w))) ++ "/None")), w).
Proof.
  intros E Hi. rewrite href_runs, E. unfold derived_link. rewrite Hi. reflexivity.
Qed.

(** One call, or any series of calls, of [read], [update] and [delete]
    hands the object back as it was. *)
Lemma calls_keep_self (cs : list Calls.call) (w : World O) :
  w_self (Calls.perform_all client cs w) = w_self w.
Proof.
  assert (one : forall c w0, w_self (Calls.perform client c w0) = w_self w0).
  { intros [|d|] w0; cbn.
    - destruct (read_runs w0) as [u ->]. reflexivity.
    - destruct (update_runs d w0) as [u ->]. reflexivity.
    - destruct (delete_runs w0) as [u ->]. reflexivity. }
  revert w. unfold Calls.perform_all.
  induction cs as [|c cs IH]; intros w; cbn; [reflexivity|].
  rewrite IH. apply one.
Qed.

End Href.

Section Credential.

Context `{CaseTables}.
Variable client : Client.

Lemma absorb_keeps_net (req : Response) (w : World ApiKey) :
  w_net (snd (absorb req w)) = w_net w.
Proof.
  unfold absorb. run.
  repeat match goal with
         | |- context [match ?x with _ => _ end] => destruct x; cbn
         end; reflexivity.
Qed.

(** The reply a successful [create] has read, and the object it leaves. *)
Lemma absorb_ok (req resp : Response) (w w' : World ApiKey) :
  absorb req w = (Ok resp, w') ->
  exists reply spec metadata owner resource,
    json req = Ok reply
    /\ get_item reply "spec" = Ok spec
    /\ get_item reply "id" = Ok (_id (super (w_self w')))
    /\ get_item reply "metadata" = Ok metadata
    /\ get_item metadata "self" = Ok (_href (super (w_self w')))
    /\ get_item spec "owner" = Ok owner
    /\ get_item owner "id" = Ok (_owner_id (w_self w'))
    /\ get_item spec "resource" = Ok resource
    /\ get_item resource "id" = Ok (_resource_id (w_self w'))
    /\ get_item spec "secret" = Ok (_secret (w_self w'))
    /\ resp = req
    /\ w_net w' = w_net w.
Proof.
  unfold absorb. run. intros E.
  destruct (json req) as [reply|] eqn:Ej; [|discriminate].
  destruct (get_item reply "spec") as [spec|] eqn:Es; [|discriminate].
  destruct (get_item reply "id") as [i|] eqn:Ei; [|discriminate].
  destruct (get_item reply "metadata") as [md|] eqn:Em; [|discriminate].
  destruct (get_item md "self") as [l|] eqn:El; [|discriminate].
  destruct (get_item spec "owner") as [o|] eqn:Eo; [|discriminate].
  destruct (get_item o "id") as [oi|] eqn:Eoi; [|discriminate].
  destruct (get_item spec "resource") as [r|] eqn:Er; [|discriminate].
  destruct (get_item r "id") as [ri|] eqn:Eri; [|discriminate].
  destruct (get_item spec "secret") as [sec|] eqn:Esec; [|discriminate].
  injection E as <- <-. cbn.
  exists reply, spec, md, o, r. repeat split; assumption.
Qed.

(** [create], step by step: the two checks, then the request, then the
    reply. *)
Lemma ApiKey_create_runs (owner_arg resource_arg name_arg description_arg : value)
    (w : World ApiKey) :
  let self := w_self w in
  let owner := if truthy owner_arg then owner_arg else _owner_id self in
  let resource := if truthy resource_arg then resource_arg else _resource_id self in
  let display_name :=
    resolve name_arg (_name (super self))
            (PyStr (default_display_name owner resource)) in
  ApiKey_create client owner_arg resource_arg name_arg description_arg w =
  if negb (truthy owner_arg) && negb (truthy (_owner_id self))
  then (Raise (AttributeError "Owner ID must be specified"), w)
  else if negb (truthy resource_arg) && negb (truthy (_resource_id self))
  then (Raise (AttributeError "Resource ID must be specified"), w)
  else
    match
      (if truthy description_arg then Ok description_arg
       else if truthy (_description (super self))
       then Ok (_description (super self))
       else match call_replace display_name "::" " " with
            | Ok replaced => call_title replaced
            | Raise e => Raise e
            end)
    with
    | Raise e => (Raise e, w)
    | Ok description =>
        (req <- send client
                  (POST (collection_url client (super self))
                        (create_payload owner resource display_name description)) ;;
         absorb req) w
    end.
Proof.
  intros self owner resource display_name.
  subst self owner resource display_name.
  unfold ApiKey_create, absorb, resolve, default_display_name, collection_url,
    create_payload.
  run.
  destruct (truthy owner_arg), (truthy (_owner_id (w_self w))); cbn;
    try reflexivity;
    destruct (truthy resource_arg), (truthy (_resource_id (w_self w))); cbn;
    try reflexivity;
    destruct (truthy name_arg), (truthy (_name (ApiKey_super (w_self w)))); cbn;
    destruct (truthy description_arg),
             (truthy (_description (ApiKey_super (w_self w)))); cbn;
    try reflexivity;
    match goal with
    | |- context [call_replace ?v _ _] => destruct (call_replace v "::" " "); cbn
    end;
    try reflexivity;
    match goal with
    | |- context [call_title ?v] => destruct (call_title v); cbn
    end;
    reflexivity.
Qed.

Lemma send_absorb_net (r : Request) (w : World ApiKey) :
  w_net (snd ((req <- send client r ;; absorb req) w)) = (w_net w ++ [r])%list.
Proof.
  unfold bind, send.
  destruct (respond client (w_net w) r) as [req|e]; [|reflexivity].
  apply absorb_keeps_net.
Qed.

(** A [create] that returns has gone through [absorb]. *)
Lemma create_ok_absorbed
    (owner_arg resource_arg name_arg description_arg : value)
    (w w' : World ApiKey) (resp : Response) :
  ApiKey_create client owner_arg resource_arg name_arg description_arg w
  = (Ok resp, w') ->
  exists w1, w_self w1 = w_self w /\ absorb resp w1 = (Ok resp, w').
Proof.
  intros E. rewrite ApiKey_create_runs in E.
  destruct (negb (truthy owner_arg) && negb (truthy (_owner_id (w_self w))));
    [discriminate|].
  destruct (negb (truthy resource_arg) && negb (truthy (_resource_id (w_self w))));
    [discriminate|].
  match type of E with
  | match ?d with _ => _ end = _ => destruct d as [description|]; [|discriminate]
  end.
  unfold bind at 1 in E. unfold send in E.
  match type of E with
  | match ?r with _ => _ end = _ => destruct r as [req|]; [|discriminate]
  end.
  pose proof (absorb_ok _ _ _ _ E) as (_ & _ & _ & _ & _ & _ & _ & _ & _ & _ & _
                                       & _ & _ & _ & _ & -> & _).
  eexists. split; [|exact E]. reflexivity.
Qed.

(** C2.  With no owner id (neither the argument nor the stored one passes
    [if owner_id]), or with no resource id, [create] raises
    [AttributeError], whatever the other arguments are; the object is
    untouched and no request has been sent. *)
Theorem create_requires_owner_and_resource
    (owner_arg resource_arg name_arg description_arg : value) (w : World ApiKey) :
  (truthy owner_arg = false /\ truthy (_owner_id (w_self w)) = false)
  \/ (truthy resource_arg = false /\ truthy (_resource_id (w_self w)) = false) ->
  exists msg,
    ApiKey_create client owner_arg resource_arg name_arg description_arg w
    = (Raise (AttributeError msg), w).
Proof.
  intros Hmissing. rewrite ApiKey_create_runs.
  destruct Hmissing as [[Ha Hs]|[Ha Hs]].
  - rewrite Ha, Hs. cbn. eauto.
  - rewrite Ha, Hs.
    destruct (negb (truthy owner_arg) && negb (truthy (_owner_id (w_self w))));
      cbn; eauto.
Qed.

(** C4.  With an owner id and a resource id at hand, [create] sends one
    request, a POST to the collection URL.  In its payload every field is
    the argument, else the stored attribute, else the default: the default
    display name is [owner_id + "::" + resource_id], the default
    description is the display name with ["::"] replaced by a space and
    title-cased. *)
Theorem create_payload_defaults
    (owner_arg resource_arg name_arg description_arg : value) (w : World ApiKey) :
  let self := w_self w in
  let owner := if truthy owner_arg then owner_arg else _owner_id self in
  let resource := if truthy resource_arg then resource_arg else _resource_id self in
  let sent :=
    w_net (snd (ApiKey_create client owner_arg resource_arg name_arg
                              description_arg w)) in
  truthy owner = true ->
  truthy resource = true ->
  (forall s,
      resolve name_arg (_name (super self))
              (PyStr (default_display_name owner resource)) = PyStr s ->
      sent = (w_net w ++
              [POST (collection_url client (super self))
                    (create_payload owner resource (PyStr s)
                       (resolve description_arg (_description (super self))
                                (PyStr (default_description s))))])%list)
  /\ (truthy name_arg = false ->
      truthy (_name (super self)) = false ->
      truthy description_arg = false ->
      truthy (_description (super self)) = false ->
      sent = (w_net w ++
              [POST (collection_url client (super self))
                    (create_payload owner resource
                       (PyStr (default_display_name owner resource))
                       (PyStr (default_description
                                 (default_display_name owner resource))))])%list).
Proof.
  intros self owner resource sent Ho Hr.
  assert (checks :
            negb (truthy owner_arg) && negb (truthy (_owner_id self)) = false
            /\ negb (truthy resource_arg) && negb (truthy (_resource_id self)) = false).
  { subst owner resource.
    destruct (truthy owner_arg), (truthy resource_arg); cbn;
      rewrite ?Ho, ?Hr; auto. }
  destruct checks as [Co Cr].
  assert (general : forall s,
      resolve name_arg (_name (super self))
              (PyStr (default_display_name owner resource)) = PyStr s ->
      sent = (w_net w ++
              [POST (collection_url client (super self))
                    (create_payload owner resource (PyStr s)
                       (resolve description_arg (_description (super self))
                                (PyStr (default_description s))))])%list).
  { intros s Hs. subst sent. rewrite ApiKey_create_runs.
    fold self owner resource. rewrite Co, Cr, Hs.
    unfold resolve, default_description.
    destruct (truthy description_arg); [apply send_absorb_net|].
    destruct (truthy (_description (super self))); [apply send_absorb_net|].
    cbn [call_replace call_title]. apply send_absorb_net. }
  split; [exact general|].
  intros Hn Hsn Hd Hsd.
  specialize (general (default_display_name owner resource)).
  unfold resolve in general. rewrite Hn, Hsn, Hd, Hsd in general.
  apply general. reflexivity.
Qed.

(** C6.  A [create] that returns has read the reply's body: the id is its
    ["id"], the link its ["metadata"]["self"], the owner and resource ids
    its ["spec"]["owner"]["id"] and ["spec"]["resource"]["id"], the secret
    its ["spec"]["secret"].  No other operation of the class writes the
    secret: the constructor sets it to [None], and the properties, their
    setters, [list], [read], [update] and [delete] leave it as it is. *)
Theorem create_reads_back_reply :
  (forall owner_arg resource_arg name_arg description_arg
          (w w' : World ApiKey) (resp : Response),
      ApiKey_create client owner_arg resource_arg name_arg description_arg w
      = (Ok resp, w') ->
      exists reply spec metadata owner resource,
        json resp = Ok reply
        /\ get_item reply "spec" = Ok spec
        /\ get_item reply "id" = Ok (_id (super (w_self w')))
        /\ get_item reply "metadata" = Ok metadata
        /\ get_item metadata "self" = Ok (_href (super (w_self w')))
        /\ get_item spec "owner" = Ok owner
        /\ get_item owner "id" = Ok (_owner_id (w_self w'))
        /\ get_item spec "resource" = Ok resource
        /\ get_item resource "id" = Ok (_resource_id (w_self w'))
        /\ get_item spec "secret" = Ok (_secret (w_self w')))
  /\ (forall i n d o r, _secret (new_ApiKey i n d o r) = PyNone)
  /\ keeps_secret obj_id
  /\ (forall v, keeps_secret (set_obj_id v))
  /\ keeps_secret (href client)
  /\ (forall v, keeps_secret (set_href v))
  /\ keeps_secret owner_id
  /\ keeps_secret resource_id
  /\ keeps_secret (list_ client)
  /\ keeps_secret (read client)
  /\ (forall d, keeps_secret (update client d))
  /\ keeps_secret (delete client).
Proof.
  split.
  { intros owner_arg resource_arg name_arg description_arg w w' resp E.
    apply create_ok_absorbed in E. destruct E as (w1 & _ & E).
    apply absorb_ok in E.
    destruct E as (reply & spec & md & o & r & Ej & Es & Ei & Em & El & Eo & Eoi
                   & Er & Eri & Esec & _ & _).
    exists reply, spec, md, o, r. repeat split; assumption. }
  split; [reflexivity|].
  repeat split; try (intros ? w); try intros w; try reflexivity.
  - rewrite href_runs. reflexivity.
  - run. destruct (truthy (api_path (super (w_self w)))); cbn; [|reflexivity].
    destruct (respond client (w_net w) _); reflexivity.
  - destruct (read_runs client w) as [u ->]. reflexivity.
  - destruct (update_runs client d w) as [u ->]. reflexivity.
  - destruct (delete_runs client w) as [u ->]. reflexivity.
Qed.

(** C7.  On a service account and on an API key alike, [read], [update]
    and [delete], alone or in any series, leave every attribute as it
    was; so the secret a [create] has stored stays what the reply gave. *)
Theorem read_update_delete_frame :
  (forall (w : World ServiceAccount) d,
      w_self (snd (read client w)) = w_self w
      /\ w_self (snd (update client d w)) = w_self w
      /\ w_self (snd (delete client w)) = w_self w)
  /\ (forall (w : World ApiKey) d,
      w_self (snd (read client w)) = w_self w
      /\ w_self (snd (update client d w)) = w_self w
      /\ w_self (snd (delete client w)) = w_self w)
  /\ (forall (w : World ServiceAccount) cs,
        w_self (Calls.perform_all client cs w) = w_self w)
  /\ (forall (w : World ApiKey) cs,
        w_self (Calls.perform_all client cs w) = w_self w)
  /\ (forall owner_arg resource_arg name_arg description_arg
             (w w' : World ApiKey) (resp : Response) cs,
        ApiKey_create client owner_arg resource_arg name_arg description_arg w
        = (Ok resp, w') ->
        exists reply spec,
          json resp = Ok reply
          /\ get_item reply "spec" = Ok spec
          /\ get_item spec "secret"
             = Ok (_secret (w_self (Calls.perform_all client cs w')))).
Proof.
  assert (single : forall (Obj : Type) (I : Inherits Obj) (w : World Obj) d,
             w_self (snd (read client w)) = w_self w
             /\ w_self (snd (update client d w)) = w_self w
             /\ w_self (snd (delete client w)) = w_self w).
  { intros Obj I w d. repeat split.
    - apply (calls_keep_self client [Calls.Read] w).
    - apply (calls_keep_self client [Calls.Update d] w).
    - apply (calls_keep_self client [Calls.Delete] w). }
  split; [intros; apply single|].
  split; [intros; apply single|].
  split; [intros; apply calls_keep_self|].
  split; [intros; apply calls_keep_self|].
  intros owner_arg resource_arg name_arg description_arg w w' resp cs E.
  apply create_ok_absorbed in E. destruct E as (w1 & _ & E).
  apply absorb_ok in E.
  destruct E as (reply & spec & md & o & r & Ej & Es & _ & _ & _ & _ & _
                 & _ & _ & Esec & _ & _).
  exists reply, spec. rewrite calls_keep_self. auto.
Qed.

End Credential.

Section Account.

Context `{CaseTables}.
Variable client : Client.

(** C10.  Whatever [obj_id] the constructor of [ServiceAccount] is given,
    the id it leaves is [None]: the argument is stored first, and the
    initializer of the base class, run next, puts [None] in its place. *)
Theorem ServiceAccount_init_discards_obj_id (obj_id_arg display_name description : value) :
  _id (super (new_ServiceAccount obj_id_arg display_name description)) = PyNone
  /\ fst (obj_id (Stub.start (new_ServiceAccount obj_id_arg display_name description)))
     = Ok PyNone
  /\ _id (super (w_self (snd (assign_super with_id obj_id_arg
                                (Stub.start fresh_ServiceAccount)))))
     = obj_id_arg.
Proof. repeat split. Qed.

(** C5.  For an account whose display name is a string (or whose
    description is set), [create] sends one request, a POST to the
    collection URL with the payload [display_name], [description], the
    description being the stored one or else the title-cased display
    name.  When the transport answers with a body that has
    ["metadata"]["self"] and ["id"], the call returns the response and has
    stored these two as link and id, so that [obj_id] gives the new id
    and [href] the link. *)
Theorem ServiceAccount_create_spec (w : World ServiceAccount) :
  let self := w_self w in
  truthy (_description (super self)) = true
  \/ (exists n, _name (super self) = PyStr n) ->
  w_net (snd (ServiceAccount_create client w))
  = (w_net w ++ [account_request client (super self)])%list
  /\ (forall resp body metadata link new_id,
        respond client (w_net w) (account_request client (super self)) = Ok resp ->
        json resp = Ok body ->
        get_item body "metadata" = Ok metadata ->
        get_item metadata "self" = Ok link ->
        get_item body "id" = Ok new_id ->
        let w' := {| w_self := with_super (with_id new_id
                                             (with_href link (super self))) self;
                     w_net := (w_net w ++ [account_request client (super self)])%list |} in
        ServiceAccount_create client w = (Ok resp, w')
        /\ obj_id w' = (Ok new_id, w')
        /\ (truthy link = true -> href client w' = (Ok link, w'))).
Proof.
  intros self Hpre.
  assert (Hrun : ServiceAccount_create client w =
    (req <- send client (account_request client (super self)) ;;
     payload <- lift (json req) ;;
     metadata <- lift (get_item payload "metadata") ;;
     link <- lift (get_item metadata "self") ;;
     assign_super with_href link ;;
     new_id <- lift (get_item payload "id") ;;
     set_obj_id new_id ;;
     ret req) w).
  { subst self. destruct w as [[b keys] net].
    unfold ServiceAccount_create, account_request, account_payload,
      collection_url, account_description.
    run. cbn [super ServiceAccount_Inherits ServiceAccount_super] in *.
    destruct (truthy (_description b)); cbn [negb]; [reflexivity|].
    destruct Hpre as [?|[n Hn]]; [discriminate|].
    cbn [w_self w_net ServiceAccount_super]. rewrite Hn. reflexivity. }
  rewrite Hrun. clear Hrun. split.
  - run.
    repeat match goal with
           | |- context [match ?x with _ => _ end] => destruct x; cbn
           end; reflexivity.
  - intros resp body metadata link new_id Hr Hj Hm Hl Hi w'. subst w'.
    split; [|split].
    + run. fold self. rewrite Hr, Hj, Hm, Hl. cbn. rewrite Hi. reflexivity.
    + reflexivity.
    + intros Ht. rewrite href_runs. cbn. rewrite Ht. reflexivity.
Qed.

Lemma import_loop (entries : list value) :
  forall (fields : list (value * value)) (w : World ServiceAccount),
    Forall2 (fun e f => key_fields e = Ok f) entries fields ->
    for_each entries import_body w =
    (Ok tt,
     {| w_self := with_api_keys
                    (_api_keys (w_self w)
                     ++ map (imported_key (_id (super (w_self w)))) fields)%list
                    (w_self w);
        w_net := w_net w |}).
Proof.
  induction entries as [|e entries IH]; intros fields w HF; inversion HF; subst.
  - cbn. rewrite app_nil_r. destruct w as [[b ks] net]. reflexivity.
  - match goal with H : key_fields e = Ok ?f |- _ => rename H into He end.
    cbn [for_each]. unfold bind at 1. unfold import_body at 1. run.
    unfold key_fields in He.
    destruct (get_item e "id") as [key_id|]; [|discriminate].
    destruct (get_item e "spec") as [spec|]; [|discriminate].
    destruct (get_item spec "resource") as [resource|]; [|discriminate].
    destruct (get_item resource "id") as [rid|]; [|discriminate].
    injection He as <-. cbn.
    erewrite IH by eassumption. cbn. rewrite <- app_assoc. reflexivity.
Qed.

(** C9.  For an account with a string id, [import_api_keys] sends a GET
    to [api_url + "/iam/v2/api-keys?owner=" + id]; when the reply's
    ["data"] is a list whose entries each have an ["id"] and a
    ["spec"]["resource"]["id"], it appends one new [ApiKey] per entry, in
    order, with that id, this account's id as owner, that resource id, and
    no stored link: the [href] of such a key is derived from its id. *)
Theorem import_api_keys_appends
    (w : World ServiceAccount) (i : string) (resp : Response) (body : value)
    (entries : list value) (fields : list (value * value)) :
  let self := w_self w in
  let url := PyStr (api_url client ++ api_keys_path ++ "?owner=" ++ i) in
  _id (super self) = PyStr i ->
  respond client (w_net w) (GET url) = Ok resp ->
  json resp = Ok body ->
  get_item body "data" = Ok (PyList entries) ->
  Forall2 (fun e f => key_fields e = Ok f) entries fields ->
  import_api_keys client w =
  (Ok tt,
   {| w_self := with_api_keys
                  (_api_keys self ++ map (imported_key (PyStr i)) fields)%list self;
      w_net := (w_net w ++ [GET url])%list |})
  /\ Forall (fun f =>
               let key := imported_key (PyStr i) f in
               _id (super key) = fst f
               /\ _owner_id key = PyStr i
               /\ _resource_id key = snd f
               /\ _href (super key) = PyNone
               /\ fst (href client (Stub.start key))
                  = Ok (PyStr (api_url client ++ api_keys_path ++ "/"
                               ++ py_str (fst f))))
            fields.
Proof.
  intros self url Hi Hr Hj Hd HF. split.
  - unfold import_api_keys. fold import_body.
    unfold bind at 1. unfold obj_id at 1, attr. cbn [w_self].
    fold self. rewrite Hi. cbn [py_str]. fold url.
    unfold bind at 1. unfold send at 1. rewrite Hr.
    unfold bind at 1. unfold lift at 1. rewrite Hj.
    unfold bind at 1. unfold lift at 1. rewrite Hd.
    unfold bind at 1. unfold lift at 1. cbn [iter].
    rewrite (import_loop entries fields) by exact HF.
    cbn [w_self w_net]. fold self. rewrite Hi. reflexivity.
  - apply Forall_forall. intros [key_id rid] _. cbn. repeat split.
Qed.

End Account.

Section Lookup.

Variable client : Client.

Lemma lookup_body_runs (display_name entry : value) (w : World ServiceAccount) :
  well_formed entry ->
  lookup_body display_name entry w =
  (Ok tt,
   {| w_self := if matches display_name entry
                then adopted entry (w_self w) else w_self w;
      w_net := w_net w |}).
Proof.
  intros [fields Hf]. unfold lookup_body, matches, adopted. rewrite Hf.
  unfold account_fields in Hf. run.
  destruct (get_item entry "metadata") as [md|]; [|discriminate].
  destruct (get_item md "self") as [l|]; [|discriminate].
  destruct (get_item entry "id") as [i|]; [|discriminate].
  destruct (get_item entry "description") as [d|]; [|discriminate].
  destruct (get_item entry "display_name") as [n|]; [|discriminate].
  injection Hf as <-.
  destruct w as [[b keys] net].
  destruct (py_eq n display_name); reflexivity.
Qed.

Lemma adopted_twice (e e' : value) (self : ServiceAccount) :
  well_formed e -> adopted e (adopted e' self) = adopted e self.
Proof.
  intros [[[[l i] d] n] Hf]. unfold adopted. rewrite Hf.
  destruct (account_fields e') as [[[[l' i'] d'] n']|]; [|reflexivity].
  destruct self as [b keys]. reflexivity.
Qed.

Lemma find_append {A : Type} (f : A -> bool) (l l' : list A) :
  find f (l ++ l')%list =
  match find f l with
  | Some x => Some x
  | None => find f l'
  end.
Proof.
  induction l as [|x l IH]; cbn; [reflexivity|].
  destruct (f x); [reflexivity|exact IH].
Qed.

Lemma lookup_loop (display_name : value) (accounts : list value) :
  forall w : World ServiceAccount,
    Forall well_formed accounts ->
    for_each accounts (lookup_body display_name) w =
    (Ok tt,
     {| w_self := match last_match display_name accounts with
                  | Some e => adopted e (w_self w)
                  | None => w_self w
                  end;
        w_net := w_net w |}).
Proof.
  unfold last_match.
  induction accounts as [|e accounts IH]; intros w HF.
  - destruct w. reflexivity.
  - inversion HF as [|? ? He Hrest]; subst.
    cbn [for_each]. unfold bind at 1. rewrite lookup_body_runs by exact He.
    rewrite IH by exact Hrest. cbn [w_self w_net rev].
    rewrite find_append.
    destruct (find (matches display_name) (rev accounts)) as [e'|] eqn:Efind.
    + destruct (matches display_name e); [|reflexivity].
      rewrite adopted_twice; [reflexivity|].
      apply find_some in Efind. destruct Efind as [Hin _].
      apply in_rev in Hin. rewrite Forall_forall in Hrest. auto.
    + cbn [find]. destruct (matches display_name e); reflexivity.
Qed.

(** C1, as the code has it.  With no id (neither the argument nor the
    stored one passes [if account_id]) and a display name, [set_from_read]
    sends the GET of [list] and goes through the whole ["data"] list; every
    entry whose ["display_name"] equals the name overwrites the link, id,
    description and display name, so the account ends with the fields of
    the last such entry, and is unchanged when there is none.  With
    neither id nor display name the call does nothing. *)
Theorem set_from_read_by_name
    (name_arg id_arg : value) (w : World ServiceAccount) :
  let self := w_self w in
  let display_name := if truthy name_arg then name_arg else _name (super self) in
  truthy id_arg = false ->
  truthy (_id (super self)) = false ->
  (truthy display_name = false ->
   set_from_read client name_arg id_arg w = (Ok tt, w))
  /\ (truthy display_name = true ->
      truthy (api_path (super self)) = true ->
      forall resp body accounts,
        respond client (w_net w) (GET (collection_url client (super self)))
        = Ok resp ->
        json resp = Ok body ->
        get_item body "data" = Ok (PyList accounts) ->
        Forall well_formed accounts ->
        set_from_read client name_arg id_arg w =
        (Ok tt,
         {| w_self := match last_match display_name accounts with
                      | Some e => adopted e self
                      | None => self
                      end;
            w_net := (w_net w ++ [GET (collection_url client (super self))])%list |})).
Proof.
  intros self display_name Hid Hstored.
  assert (Hrun : set_from_read client name_arg id_arg w =
    (if truthy display_name then
       r <- list_ client ;;
       r <- match r with
            | Some r => ret r
            | None => lift (no_attribute PyNone "json")
            end ;;
       body <- lift (json r) ;;
       accounts <- lift (get_item body "data") ;;
       accounts <- lift (iter accounts) ;;
       for_each accounts (lookup_body display_name)
     else ret tt) w).
  { unfold set_from_read. fold (lookup_body display_name).
    unfold bind at 1. unfold attr at 1. fold self.
    unfold bind at 1. unfold obj_id at 1, attr at 1. fold self.
    rewrite Hid, Hstored. fold display_name.
    destruct (truthy display_name); reflexivity. }
  rewrite Hrun. clear Hrun. split.
  - intros ->. reflexivity.
  - intros -> Hp resp body accounts Hr Hj Hd HF.
    unfold collection_url in *. subst self.
    unfold bind at 1. unfold list_. run. rewrite Hp, Hr, Hj, Hd.
    cbn [iter]. rewrite lookup_loop by exact HF. reflexivity.
Qed.

End Lookup.

(* ===================================================================== *)
(** ** What every path keeps *)
(* ===================================================================== *)

Section Frames.

Context {O : Type} (R : World O -> World O -> Prop).
Hypothesis R_refl : forall w, R w w.
Hypothesis R_trans : forall a b c, R a b -> R b c -> R a c.

Lemma kept_ret {A : Type} (a : A) : kept R (ret a).
Proof. intros w. apply R_refl. Qed.

Lemma kept_raise {A : Type} (e : exn) : kept R (raise (A := A) e).
Proof. intros w. apply R_refl. Qed.

Lemma kept_lift {A : Type} (r : result A) : kept R (lift r).
Proof. intros w. apply R_refl. Qed.

Lemma kept_attr {A : Type} (f : O -> A) : kept R (attr f).
Proof. intros w. apply R_refl. Qed.

Lemma kept_bind {A B : Type} (m : M O A) (k : A -> M O B) :
  kept R m -> (forall a, kept R (k a)) -> kept R (bind m k).
Proof.
  intros Hm Hk w. unfold bind. specialize (Hm w).
  destruct (m w) as [[a|e] w1]; cbn [snd] in *; [|exact Hm].
  eapply R_trans; [exact Hm|apply Hk].
Qed.

Lemma kept_for_each {A : Type} (xs : list A) (body : A -> M O unit) :
  (forall x, kept R (body x)) -> kept R (for_each xs body).
Proof.
  intros Hb. induction xs as [|x xs IH]; cbn [for_each].
  - apply kept_ret.
  - apply kept_bind; [apply Hb|intros _; exact IH].
Qed.

Lemma kept_assign (f : O -> O) :
  (forall w, R w {| w_self := f (w_self w); w_net := w_net w |}) ->
  kept R (assign f).
Proof. intros Hf w. apply Hf. Qed.

Lemma kept_send (client : Client) (r : Request) :
  (forall w, R w {| w_self := w_self w; w_net := (w_net w ++ [r])%list |}) ->
  kept R (send client r).
Proof. intros Hs w. apply Hs. Qed.

Lemma kept_fold {C : Type} (step : C -> World O -> World O) (cs : list C) :
  (forall c w, R w (step c w)) ->
  forall w, R w (fold_left (fun w c => step c w) cs w).
Proof.
  intros Hstep. induction cs as [|c cs IH]; intros w; cbn [fold_left].
  - apply R_refl.
  - eapply R_trans; [apply Hstep|apply IH].
Qed.

End Frames.

(** Take a method apart, one rule per construct. *)
Ltac frame_with refl trans leaf :=
  repeat first
    [ apply (kept_bind _ trans); [|intros]
    | apply (kept_ret _ refl)
    | apply (kept_raise _ refl)
    | apply (kept_lift _ refl)
    | apply (kept_attr _ refl)
    | apply (kept_for_each _ refl trans); intros
    | apply kept_send; intros; leaf
    | apply kept_assign; intros; leaf
    | match goal with
      | |- kept _ (if ?c then _ else _) => destruct c
      | |- kept _ (match ?x with _ => _ end) => destruct x
      | |- kept _ (let _ := _ in _) => cbv zeta
      end ].

Section AccountFrame.

Context `{CaseTables}.
Variable client : Client.

Lemma account_frame_refl (w : World ServiceAccount) : account_frame w w.
Proof.
  repeat split; exists []; rewrite app_nil_r; reflexivity.
Qed.

Lemma account_frame_trans (a b c : World ServiceAccount) :
  account_frame a b -> account_frame b c -> account_frame a c.
Proof.
  intros (Hp & [k Hk] & [n Hn]) (Hp' & [k' Hk'] & [n' Hn']).
  split; [congruence|split].
  - exists (k ++ k')%list. rewrite Hk', Hk, app_assoc. reflexivity.
  - exists (n ++ n')%list. rewrite Hn', Hn, app_assoc. reflexivity.
Qed.

Ltac account_leaf :=
  idtac;
  match goal with
  | w : World ServiceAccount |- _ =>
      destruct w as [[b ks] net];
      split; [reflexivity|split];
      [ first [ exists []; cbn; rewrite app_nil_r; reflexivity
              | eexists; reflexivity ]
      | first [ exists []; cbn; rewrite app_nil_r; reflexivity
              | eexists; reflexivity ] ]
  end.

Ltac account_frame_tac :=
  unfold ServiceAccount_create, import_api_keys, set_from_read,
    read, update, delete, list_, href, obj_id, set_obj_id, set_href,
    assign_super;
  frame_with account_frame_refl account_frame_trans account_leaf.

Lemma account_step_frame (c : account_call) (w : World ServiceAccount) :
  account_frame w (account_step client c w).
Proof.
  destruct c; cbn [account_step];
    refine ((_ : kept account_frame _) w);
    account_frame_tac.
Qed.

End AccountFrame.

Section KeyFrame.

Context `{CaseTables}.
Variable client : Client.

Lemma key_frame_refl (w : World ApiKey) : key_frame w w.
Proof.
  repeat split; exists []; rewrite app_nil_r; reflexivity.
Qed.

Lemma key_frame_trans (a b c : World ApiKey) :
  key_frame a b -> key_frame b c -> key_frame a c.
Proof.
  intros (Hp & Hn & Hd & [s Hs]) (Hp' & Hn' & Hd' & [s' Hs']).
  repeat split; try congruence.
  exists (s ++ s')%list. rewrite Hs', Hs, app_assoc. reflexivity.
Qed.

Ltac key_leaf :=
  idtac;
  match goal with
  | w : World ApiKey |- _ =>
      destruct w as [[b r o s] net];
      split; [reflexivity|split; [reflexivity|split; [reflexivity|]]];
      first [ exists []; cbn; rewrite app_nil_r; reflexivity
            | eexists; reflexivity ]
  end.

Lemma key_step_frame (c : key_call) (w : World ApiKey) :
  key_frame w (key_step client c w).
Proof.
  destruct c; cbn [key_step];
    refine ((_ : kept key_frame _) w);
    unfold ApiKey_create, read, update, delete, list_, href, obj_id,
      set_obj_id, set_href, owner_id, resource_id, assign_super;
    frame_with key_frame_refl key_frame_trans key_leaf.
Qed.

End KeyFrame.

Section SessionInvariants.

Context `{CaseTables}.
Variable client : Client.

(** X1.  Whatever is called on a service account, in whatever order and
    whether the calls return or raise: its [api_path] stays what it was,
    the keys it held stay at the front of [_api_keys] in their order, and
    the requests made before stay at the front of the log. *)
Theorem account_session_keeps (cs : list account_call) (w : World ServiceAccount) :
  api_path (super (w_self (account_session client cs w)))
  = api_path (super (w_self w))
  /\ (exists added,
        _api_keys (w_self (account_session client cs w))
        = (_api_keys (w_self w) ++ added)%list)
  /\ (exists sent,
        w_net (account_session client cs w) = (w_net w ++ sent)%list).
Proof.
  apply (kept_fold account_frame account_frame_refl account_frame_trans
                   (account_step client) cs (account_step_frame client) w).
Qed.

(** X2.  Whatever is called on an API key, [create] included, its
    [api_path], its [_name] and its [_description] stay what they were:
    the display name and description that [create] sends are not stored
    on the object. *)
Theorem key_session_keeps (cs : list key_call) (w : World ApiKey) :
  api_path (super (w_self (key_session client cs w)))
  = api_path (super (w_self w))
  /\ _name (super (w_self (key_session client cs w)))
     = _name (super (w_self w))
  /\ _description (super (w_self (key_session client cs w)))
     = _description (super (w_self w))
  /\ (exists sent, w_net (key_session client cs w) = (w_net w ++ sent)%list).
Proof.
  apply (kept_fold key_frame key_frame_refl key_frame_trans
                   (key_step client) cs (key_step_frame client) w).
Qed.

Lemma list_with_path {O : Type} `{Inherits O} (w : World O) :
  truthy (api_path (super (w_self w))) = true ->
  list_ client w =
  (match respond client (w_net w)
                 (GET (collection_url client (super (w_self w)))) with
   | Ok resp => Ok (Some resp)
   | Raise e => Raise e
   end,
   {| w_self := w_self w;
      w_net := (w_net w ++ [GET (collection_url client (super (w_self w)))])%list |}).
Proof.
  intros Hp. unfold list_, collection_url. run. rewrite Hp.
  destruct (respond client (w_net w) _); reflexivity.
Qed.

(** X3.  On an object built by its constructor, [list] never returns
    [None], whatever was called in between: it sends a GET to the
    collection of its class and hands back what the transport answers,
    or raises what the transport raises. *)
Theorem list_after_session :
  (forall i n d cs,
      let w := account_session client cs
                 (Stub.start (new_ServiceAccount i n d)) in
      let r := GET (PyStr (api_url client ++ "/iam/v2/service-accounts")) in
      list_ client w =
      (match respond client (w_net w) r with
       | Ok resp => Ok (Some resp)
       | Raise e => Raise e
       end,
       {| w_self := w_self w; w_net := (w_net w ++ [r])%list |}))
  /\ (forall i n d o rs cs,
        let w := key_session client cs
                   (Stub.start (new_ApiKey i n d o rs)) in
        let r := GET (PyStr (api_url client ++ "/iam/v2/api-keys")) in
        list_ client w =
        (match respond client (w_net w) r with
         | Ok resp => Ok (Some resp)
         | Raise e => Raise e
         end,
         {| w_self := w_self w; w_net := (w_net w ++ [r])%list |})).
Proof.
  split.
  - intros i n d cs w r.
    destruct (kept_fold account_frame account_frame_refl account_frame_trans
                        (account_step client) cs (account_step_frame client)
                        (Stub.start (new_ServiceAccount i n d)))
      as (Hp & _ & _).
    fold (account_session client cs (Stub.start (new_ServiceAccount i n d))) in Hp.
    fold w in Hp. change (api_path (super (w_self w))
                          = PyStr "/iam/v2/service-accounts") in Hp.
    rewrite list_with_path by (rewrite Hp; reflexivity).
    unfold collection_url. rewrite Hp. reflexivity.
  - intros i n d o rs cs w r.
    destruct (kept_fold key_frame key_frame_refl key_frame_trans
                        (key_step client) cs (key_step_frame client)
                        (Stub.start (new_ApiKey i n d o rs)))
      as (Hp & _ & _).
    fold (key_session client cs (Stub.start (new_ApiKey i n d o rs))) in Hp.
    fold w in Hp. change (api_path (super (w_self w))
                          = PyStr "/iam/v2/api-keys") in Hp.
    rewrite list_with_path by (rewrite Hp; reflexivity).
    unfold collection_url. rewrite Hp. reflexivity.
Qed.

End SessionInvariants.

Section BaseContract.

Variable client : Client.
Context {O : Type} `{Inherits O}.

Lemma calls_run (d : value) (w : World O) :
  let u := if truthy (_href (super (w_self w)))
           then _href (super (w_self w)) else derived_link client (w_self w) in
  read client w
  = (respond client (w_net w) (GET u),
     {| w_self := w_self w; w_net := (w_net w ++ [GET u])%list |})
  /\ update client d w
     = (respond client (w_net w) (PATCH u (PyDict [("description", d)])),
        {| w_self := w_self w;
           w_net := (w_net w ++ [PATCH u (PyDict [("description", d)])])%list |})
  /\ delete client w
     = (respond client (w_net w) (DELETE u),
        {| w_self := w_self w; w_net := (w_net w ++ [DELETE u])%list |}).
Proof.
  intros u. unfold read, update, delete, bind.
  rewrite href_runs. fold u. unfold send. cbn [w_self w_net].
  repeat split.
Qed.

(** X4.  [read], [update] and [delete] each send exactly one request (a
    GET, a PATCH carrying [description] alone, a DELETE) to the stored
    link, or to the derived one when none is stored, and hand back what
    the transport hands them: its response, or the exception it raises,
    untouched.  The object is not changed. *)
Theorem calls_send_once (d : value) (w : World O) :
  let u := if truthy (_href (super (w_self w)))
           then _href (super (w_self w)) else derived_link client (w_self w) in
  read client w
  = (respond client (w_net w) (GET u),
     {| w_self := w_self w; w_net := (w_net w ++ [GET u])%list |})
  /\ update client d w
     = (respond client (w_net w) (PATCH u (PyDict [("description", d)])),
        {| w_self := w_self w;
           w_net := (w_net w ++ [PATCH u (PyDict [("description", d)])])%list |})
  /\ delete client w
     = (respond client (w_net w) (DELETE u),
        {| w_self := w_self w; w_net := (w_net w ++ [DELETE u])%list |}).
Proof. exact (calls_run d w). Qed.

End BaseContract.

Section Properties_of_links.

Variable client : Client.

(** X5.  The setters and getters of [obj_id] and [href] on a service
    account: the id read back is the id set; a non-empty link read back
    is the link set; while a link is stored, setting another id does not
    change [href]; storing [None] as link brings back the derived one. *)
Theorem link_and_id_round_trips (w : World ServiceAccount) (v : value) :
  (set_obj_id v ;; obj_id) w = (Ok v, snd (set_obj_id v w))
  /\ (truthy v = true ->
      (set_href v ;; href client) w = (Ok v, snd (set_href v w)))
  /\ (truthy (_href (super (w_self w))) = true ->
      (set_obj_id v ;; href client) w
      = (Ok (_href (super (w_self w))), snd (set_obj_id v w)))
  /\ (forall p, api_path (super (w_self w)) = PyStr p ->
      (set_href PyNone ;; href client) w
      = (Ok (PyStr (api_url client ++ p ++ "/"
                    ++ py_str (_id (super (w_self w))))),
         snd (set_href PyNone w))).
Proof.
  destruct w as [[b ks] net]. repeat split.
  - intros Hv. unfold bind. cbn [set_href assign_super assign].
    rewrite href_runs. cbn. rewrite Hv. reflexivity.
  - intros Hl. unfold bind. cbn [set_obj_id assign_super assign].
    rewrite href_runs. cbn in *. rewrite Hl. reflexivity.
  - intros p Hp. unfold bind. cbn [set_href assign_super assign].
    rewrite href_runs. cbn in *. unfold derived_link. cbn. rewrite Hp.
    reflexivity.
Qed.

End Properties_of_links.

Section LookupById.

Variable client : Client.

(** X6.  With an id at hand (the argument, else the stored one),
    [set_from_read] ignores the display name it is given, sends one GET
    to the stored link, or with no stored link to the address derived
    from that id, and takes link, id, description and display name from
    the body of the reply. *)
Theorem set_from_read_by_id
    (name_arg id_arg : value) (w : World ServiceAccount)
    (resp : Response) (data : value) (fields : value * value * value * value) :
  let self := w_self w in
  let account_id := if truthy id_arg then id_arg else _id (super self) in
  let u := if truthy (_href (super self)) then _href (super self)
           else PyStr (api_url client ++ py_str (api_path (super self))
                       ++ "/" ++ py_str account_id) in
  truthy account_id = true ->
  respond client (w_net w) (GET u) = Ok resp ->
  json resp = Ok data ->
  account_fields data = Ok fields ->
  set_from_read client name_arg id_arg w
  = (Ok tt,
     {| w_self := adopted data self; w_net := (w_net w ++ [GET u])%list |}).
Proof.
  intros self account_id u Hid Hr Hj Hf.
  subst self. destruct w as [[b ks] net].
  unfold set_from_read, adopted. rewrite Hf. unfold account_fields in Hf.
  run. cbn [super ServiceAccount_Inherits ServiceAccount_super w_self w_net] in *.
  fold account_id. rewrite Hid.
  cbn [with_super ServiceAccount_Inherits ServiceAccount_super _href with_id
       w_self w_net api_path _id].
  subst u. cbn [w_self w_net ServiceAccount_super] in Hr.
  destruct (truthy (_href b)) eqn:El;
    cbn [w_self w_net ServiceAccount_super _api_keys _href _id api_path with_id];
    rewrite Hr, Hj;
    destruct (get_item data "metadata") as [md|]; try discriminate;
    destruct (get_item md "self") as [l|]; try discriminate;
    destruct (get_item data "id") as [i|]; try discriminate;
    destruct (get_item data "description") as [d|]; try discriminate;
    destruct (get_item data "display_name") as [n|]; try discriminate;
    injection Hf as <-; reflexivity.
Qed.

(** X7.  When the transport raises during that read, the exception
    reaches the caller, and the id tried is left stored on the account:
    the id is assigned before the request is sent. *)
Theorem set_from_read_by_id_failure
    (name_arg id_arg : value) (w : World ServiceAccount) (e : exn) :
  let self := w_self w in
  let account_id := if truthy id_arg then id_arg else _id (super self) in
  let u := if truthy (_href (super self)) then _href (super self)
           else PyStr (api_url client ++ py_str (api_path (super self))
                       ++ "/" ++ py_str account_id) in
  truthy account_id = true ->
  respond client (w_net w) (GET u) = Raise e ->
  set_from_read client name_arg id_arg w
  = (Raise e,
     {| w_self := with_super (with_id account_id (super self)) self;
        w_net := (w_net w ++ [GET u])%list |}).
Proof.
  intros self account_id u Hid Hr.
  subst self. destruct w as [[b ks] net].
  unfold set_from_read.
  run. cbn [super ServiceAccount_Inherits ServiceAccount_super w_self w_net] in *.
  fold account_id. rewrite Hid.
  cbn [with_super ServiceAccount_Inherits ServiceAccount_super _href with_id
       w_self w_net api_path _id].
  subst u. cbn [w_self w_net ServiceAccount_super] in Hr.
  destruct (truthy (_href b)) eqn:El;
    cbn [w_self w_net ServiceAccount_super _api_keys _href _id api_path with_id];
    rewrite Hr; reflexivity.
Qed.

(** The test of the scan, for a display name that is a string: the
    entry's ["display_name"] is that very string. *)
Lemma matches_exactly (s : string) (entry : value) :
  matches (PyStr s) entry = true
  <-> get_item entry "display_name" = Ok (PyStr s).
Proof.
  unfold matches. split.
  - destruct (get_item entry "display_name") as [n|]; [|discriminate].
    destruct n; cbn; try discriminate.
    intros E. apply String.eqb_eq in E. subst. reflexivity.
  - intros ->. cbn. apply String.eqb_refl.
Qed.

Lemma for_each_app {A : Type} (xs ys : list A) (body : A -> M ServiceAccount unit)
    (w : World ServiceAccount) :
  for_each (xs ++ ys)%list body w
  = (for_each xs body ;; for_each ys body) w.
Proof.
  revert w. induction xs as [|x xs IH]; intros w; cbn [app for_each].
  - reflexivity.
  - unfold bind. destruct (body x w) as [[[]|e] w1]; [|reflexivity].
    rewrite IH. reflexivity.
Qed.

(** The by-name branch, up to the loop. *)
Lemma set_from_read_name_branch
    (name_arg id_arg : value) (w : World ServiceAccount) :
  let self := w_self w in
  let display_name := if truthy name_arg then name_arg else _name (super self) in
  truthy id_arg = false ->
  truthy (_id (super self)) = false ->
  truthy display_name = true ->
  truthy (api_path (super self)) = true ->
  set_from_read client name_arg id_arg w
  = (r <- send client (GET (collection_url client (super self))) ;;
     body <- lift (json r) ;;
     accounts <- lift (get_item body "data") ;;
     accounts <- lift (iter accounts) ;;
     for_each accounts (lookup_body display_name)) w.
Proof.
  intros self display_name Hid Hstored Hn Hp.
  subst self display_name. unfold set_from_read, collection_url.
  run. rewrite Hid, Hstored in *. cbn [truthy negb andb] in *.
  rewrite Hn, Hp. cbn [negb andb].
  destruct (respond client (w_net w) _); reflexivity.
Qed.

(** X9.  When the listing cannot be had (the transport raises, or the
    body has no ["data"]), the by-name lookup raises that exception and
    leaves the account as it was. *)
Theorem set_from_read_listing_unavailable
    (name_arg id_arg : value) (w : World ServiceAccount) :
  let self := w_self w in
  let display_name := if truthy name_arg then name_arg else _name (super self) in
  let r := GET (collection_url client (super self)) in
  truthy id_arg = false ->
  truthy (_id (super self)) = false ->
  truthy display_name = true ->
  truthy (api_path (super self)) = true ->
  (forall e,
      respond client (w_net w) r = Raise e ->
      set_from_read client name_arg id_arg w
      = (Raise e, {| w_self := self; w_net := (w_net w ++ [r])%list |}))
  /\ (forall resp body e,
        respond client (w_net w) r = Ok resp ->
        json resp = Ok body ->
        get_item body "data" = Raise e ->
        set_from_read client name_arg id_arg w
        = (Raise e, {| w_self := self; w_net := (w_net w ++ [r])%list |})).
Proof.
  intros self display_name r Hid Hstored Hn Hp.
  pose proof (set_from_read_name_branch name_arg id_arg w Hid Hstored Hn Hp) as E.
  cbv zeta in E. fold self display_name r in E. rewrite E. split.
  - intros e Hr. unfold bind, send. rewrite Hr. reflexivity.
  - intros resp body e Hr Hj Hd. unfold bind, send, lift. rewrite Hr, Hj, Hd.
    reflexivity.
Qed.

(** X10.  The scan stops at the first entry that has no
    ["display_name"]: the lookup raises there, the entries after it are
    not looked at, and what the entries before it have set stays set. *)
Theorem set_from_read_stops_at_unnamed_entry
    (name_arg id_arg : value) (w : World ServiceAccount)
    (resp : Response) (body : value) (before after : list value)
    (unnamed : value) (e : exn) :
  let self := w_self w in
  let display_name := if truthy name_arg then name_arg else _name (super self) in
  let r := GET (collection_url client (super self)) in
  truthy id_arg = false ->
  truthy (_id (super self)) = false ->
  truthy display_name = true ->
  truthy (api_path (super self)) = true ->
  respond client (w_net w) r = Ok resp ->
  json resp = Ok body ->
  get_item body "data" = Ok (PyList (before ++ unnamed :: after)) ->
  Forall well_formed before ->
  get_item unnamed "display_name" = Raise e ->
  set_from_read client name_arg id_arg w
  = (Raise e,
     {| w_self := match last_match display_name before with
                  | Some entry => adopted entry self
                  | None => self
                  end;
        w_net := (w_net w ++ [r])%list |}).
Proof.
  intros self display_name r Hid Hstored Hn Hp Hr Hj Hd HF He.
  pose proof (set_from_read_name_branch name_arg id_arg w Hid Hstored Hn Hp) as E.
  cbv zeta in E. fold self display_name r in E. rewrite E.
  unfold bind at 1. unfold send. rewrite Hr.
  unfold bind at 1. unfold lift at 1. rewrite Hj.
  unfold bind at 1. unfold lift at 1. rewrite Hd.
  unfold bind at 1. unfold lift at 1. cbn [iter].
  rewrite for_each_app. unfold bind at 1.
  rewrite lookup_loop by exact HF. cbn [for_each w_self w_net].
  unfold bind at 1. unfold lookup_body at 1. unfold bind at 1, lift at 1.
  rewrite He. reflexivity.
Qed.

Lemma find_nothing {A : Type} (f : A -> bool) (l : list A) :
  (forall x, In x l -> f x = false) -> find f l = None.
Proof.
  induction l as [|x l IH]; intros Hl; cbn; [reflexivity|].
  rewrite (Hl x (or_introl eq_refl)). apply IH.
  intros y Hy. apply Hl. right. exact Hy.
Qed.

Lemma not_matching (s : string) (entry : value) :
  get_item entry "display_name" <> Ok (PyStr s) ->
  matches (PyStr s) entry = false.
Proof.
  intros Hne. destruct (matches (PyStr s) entry) eqn:E; [|reflexivity].
  apply matches_exactly in E. contradiction.
Qed.

(** X8.  The by-name lookup of [set_from_read] compares exactly.  For a
    display name that is a string and a listing of well-formed entries:
    when no entry's ["display_name"] is that very string the account is
    left as it was; when some are, the account takes the fields of the
    last of them.  Entries that differ from the name in any way (case, a
    space, another type) are passed over. *)
Theorem set_from_read_matches_exactly
    (name_arg id_arg : value) (w : World ServiceAccount) (s : string)
    (resp : Response) (body : value) (accounts : list value) :
  let self := w_self w in
  let r := GET (collection_url client (super self)) in
  truthy id_arg = false ->
  truthy (_id (super self)) = false ->
  (if truthy name_arg then name_arg else _name (super self)) = PyStr s ->
  s <> "" ->
  truthy (api_path (super self)) = true ->
  respond client (w_net w) r = Ok resp ->
  json resp = Ok body ->
  get_item body "data" = Ok (PyList accounts) ->
  Forall well_formed accounts ->
  ((forall e, In e accounts -> get_item e "display_name" <> Ok (PyStr s)) ->
   set_from_read client name_arg id_arg w
   = (Ok tt, {| w_self := self; w_net := (w_net w ++ [r])%list |}))
  /\ (forall before e after,
        accounts = (before ++ e :: after)%list ->
        get_item e "display_name" = Ok (PyStr s) ->
        (forall e', In e' after -> get_item e' "display_name" <> Ok (PyStr s)) ->
        set_from_read client name_arg id_arg w
        = (Ok tt,
           {| w_self := adopted e self; w_net := (w_net w ++ [r])%list |})).
Proof.
  intros self r Hid Hstored Hname Hs Hp Hr Hj Hd HF.
  assert (Hn : truthy (if truthy name_arg then name_arg
                       else _name (super self)) = true).
  { rewrite Hname. cbn. destruct s; [contradiction|reflexivity]. }
  pose proof (set_from_read_name_branch name_arg id_arg w Hid Hstored Hn Hp) as E.
  cbv zeta in E. fold self r in E. rewrite Hname in E.
  assert (Hrun : set_from_read client name_arg id_arg w
                 = (Ok tt,
                    {| w_self := match last_match (PyStr s) accounts with
                                 | Some e => adopted e self
                                 | None => self
                                 end;
                       w_net := (w_net w ++ [r])%list |})).
  { rewrite E.
    unfold bind at 1. unfold send. rewrite Hr.
    unfold bind at 1. unfold lift at 1. rewrite Hj.
    unfold bind at 1. unfold lift at 1. rewrite Hd.
    unfold bind at 1. unfold lift at 1. cbn [iter].
    rewrite lookup_loop by exact HF. reflexivity. }
  rewrite Hrun. unfold last_match. split.
  - intros Hnone. rewrite find_nothing; [reflexivity|].
    intros x Hx. apply not_matching, Hnone. apply in_rev. exact Hx.
  - intros before e after -> He Hafter.
    rewrite rev_app_distr. cbn [rev]. rewrite <- app_assoc. cbn [app].
    rewrite find_append. rewrite find_nothing.
    + cbn [find]. rewrite (proj2 (matches_exactly s e) He). reflexivity.
    + intros x Hx. apply not_matching, Hafter. apply in_rev. exact Hx.
Qed.

End LookupById.

Section ImportMore.

Variable client : Client.

(** The loop of [import_api_keys], whatever the entries are. *)
Lemma import_loop_any (entries : list value) :
  forall w : World ServiceAccount,
  exists added,
    snd (for_each entries import_body w)
    = {| w_self := with_api_keys (_api_keys (w_self w) ++ added)%list (w_self w);
         w_net := w_net w |}
    /\ Forall (fun k => exists key_id resource,
                   k = new_ApiKey key_id PyNone PyNone
                                  (_id (super (w_self w))) resource)
              added.
Proof.
  induction entries as [|e entries IH]; intros w.
  - exists []. split; [|constructor].
    cbn. rewrite app_nil_r. destruct w as [[b ks] net]. reflexivity.
  - cbn [for_each]. unfold bind at 1. unfold import_body at 1. run.
    assert (stay : exists added,
               w = {| w_self := with_api_keys (_api_keys (w_self w) ++ added)%list
                                              (w_self w);
                      w_net := w_net w |}
               /\ Forall (fun k => exists key_id resource,
                              k = new_ApiKey key_id PyNone PyNone
                                             (_id (super (w_self w))) resource)
                         added).
    { exists []. split; [|constructor].
      rewrite app_nil_r. destruct w as [[b ks] net]. reflexivity. }
    destruct (get_item e "id") as [key_id|]; [|exact stay].
    destruct (get_item e "spec") as [spec|]; [|exact stay].
    destruct (get_item spec "resource") as [resource|]; [|exact stay].
    destruct (get_item resource "id") as [rid|]; [|exact stay].
    cbn [fst snd].
    match goal with
    | |- context [for_each entries import_body ?w1] =>
        destruct (IH w1) as (added & E & HF);
        destruct (for_each entries import_body w1) as [r w2]
    end.
    cbn [snd] in E. subst.
    destruct w as [[b ks] net]. cbn in *.
    eexists (_ :: added). split.
    + destruct r; cbn; rewrite <- app_assoc; reflexivity.
    + constructor; [eauto|exact HF].
Qed.

(** Every way [import_api_keys] can end. *)
Lemma import_api_keys_outcome (w : World ServiceAccount)
    (P : result unit * World ServiceAccount -> Prop) :
  (forall out added,
      Forall (fun k => exists key_id resource,
                  k = new_ApiKey key_id PyNone PyNone
                                 (_id (super (w_self w))) resource)
             added ->
      P (out,
         {| w_self := with_api_keys (_api_keys (w_self w) ++ added)%list (w_self w);
            w_net := (w_net w
                      ++ [GET (PyStr (api_url client ++ api_keys_path
                                      ++ "?owner="
                                      ++ py_str (_id (super (w_self w)))))])%list |})) ->
  P (import_api_keys client w).
Proof.
  intros HP.
  assert (nothing : forall out,
             P (out,
                {| w_self := w_self w;
                   w_net := (w_net w
                             ++ [GET (PyStr (api_url client ++ api_keys_path
                                             ++ "?owner="
                                             ++ py_str (_id (super (w_self w)))))])%list |})).
  { intros out. specialize (HP out [] (Forall_nil _)).
    rewrite app_nil_r in HP. destruct w as [[b ks] net]. exact HP. }
  unfold import_api_keys. fold import_body.
  unfold bind at 1. unfold obj_id at 1, attr. cbn [w_self].
  unfold bind at 1. unfold send at 1.
  destruct (respond client (w_net w) _) as [resp|]; [|apply nothing].
  unfold bind at 1. unfold lift at 1.
  destruct (json resp) as [body|]; [|apply nothing].
  unfold bind at 1. unfold lift at 1.
  destruct (get_item body "data") as [data|]; [|apply nothing].
  unfold bind at 1. unfold lift at 1.
  destruct (iter data) as [entries|]; [|apply nothing].
  match goal with
  | |- context [for_each entries import_body ?w1] =>
      destruct (import_loop_any entries w1) as (added & E & HF);
      destruct (for_each entries import_body w1) as [out w2]
  end.
  cbn [snd] in E. subst w2. cbn [w_self w_net] in *.
  specialize (HP out added HF).
  destruct w as [[b ks] net]. exact HP.
Qed.

(** X11.  However [import_api_keys] ends, it has sent exactly one GET,
    to [api_url + "/iam/v2/api-keys?owner=" + str(id)]; the attributes of
    the account itself are untouched; the keys it held are still there,
    first and in order; and every key added was built with this account's
    id as owner, so it has no link, no secret, no name and no
    description. *)
Theorem import_api_keys_keeps (w : World ServiceAccount) :
  let self := w_self w in
  let w' := snd (import_api_keys client w) in
  super (w_self w') = super self
  /\ w_net w'
     = (w_net w ++ [GET (PyStr (api_url client ++ "/iam/v2/api-keys?owner="
                                ++ py_str (_id (super self))))])%list
  /\ exists added,
       _api_keys (w_self w') = (_api_keys self ++ added)%list
       /\ Forall (fun k => _owner_id k = _id (super self)
                           /\ _secret k = PyNone
                           /\ _href (super k) = PyNone
                           /\ _name (super k) = PyNone
                           /\ _description (super k) = PyNone
                           /\ api_path (super k) = PyStr "/iam/v2/api-keys")
                 added.
Proof.
  intros self w'. subst w'.
  apply (import_api_keys_outcome w). intros out added HF.
  cbn [snd w_self w_net]. fold self. split; [|split].
  - destruct self; reflexivity.
  - reflexivity.
  - exists added. split; [destruct self; reflexivity|].
    eapply Forall_impl; [|exact HF].
    intros k (key_id & resource & ->). repeat split.
Qed.

(** [import_api_keys] on a listing it can read through. *)
Lemma import_api_keys_runs
    (w : World ServiceAccount) (resp : Response) (body : value)
    (entries : list value) (fields : list (value * value)) :
  let self := w_self w in
  let r := GET (PyStr (api_url client ++ api_keys_path ++ "?owner="
                       ++ py_str (_id (super self)))) in
  respond client (w_net w) r = Ok resp ->
  json resp = Ok body ->
  get_item body "data" = Ok (PyList entries) ->
  Forall2 (fun e f => key_fields e = Ok f) entries fields ->
  import_api_keys client w =
  (Ok tt,
   {| w_self := with_api_keys
                  (_api_keys self
                   ++ map (imported_key (_id (super self))) fields)%list self;
      w_net := (w_net w ++ [r])%list |}).
Proof.
  intros self r Hr Hj Hd HF.
  unfold import_api_keys. fold import_body.
  unfold bind at 1. unfold obj_id at 1, attr. cbn [w_self]. fold self r.
  unfold bind at 1. unfold send at 1. rewrite Hr.
  unfold bind at 1. unfold lift at 1. rewrite Hj.
  unfold bind at 1. unfold lift at 1. rewrite Hd.
  unfold bind at 1. unfold lift at 1. cbn [iter].
  rewrite (import_loop entries fields) by exact HF. reflexivity.
Qed.

(** X12.  An entry of the listing without ["id"] or without
    ["spec"]["resource"]["id"] stops the import: the call raises the
    [KeyError] (or [TypeError]) of that entry, the keys of the entries
    before it have been appended and stay, those after it are not
    read. *)
Theorem import_api_keys_stops_at_malformed
    (w : World ServiceAccount) (resp : Response) (body : value)
    (good rest : list value) (bad : value)
    (fields : list (value * value)) (e : exn) :
  let self := w_self w in
  let r := GET (PyStr (api_url client ++ api_keys_path ++ "?owner="
                       ++ py_str (_id (super self)))) in
  respond client (w_net w) r = Ok resp ->
  json resp = Ok body ->
  get_item body "data" = Ok (PyList (good ++ bad :: rest)) ->
  Forall2 (fun e f => key_fields e = Ok f) good fields ->
  key_fields bad = Raise e ->
  import_api_keys client w =
  (Raise e,
   {| w_self := with_api_keys
                  (_api_keys self
                   ++ map (imported_key (_id (super self))) fields)%list self;
      w_net := (w_net w ++ [r])%list |}).
Proof.
  intros self r Hr Hj Hd HF Hbad.
  unfold import_api_keys. fold import_body.
  unfold bind at 1. unfold obj_id at 1, attr. cbn [w_self]. fold self r.
  unfold bind at 1. unfold send at 1. rewrite Hr.
  unfold bind at 1. unfold lift at 1. rewrite Hj.
  unfold bind at 1. unfold lift at 1. rewrite Hd.
  unfold bind at 1. unfold lift at 1. cbn [iter].
  rewrite for_each_app. unfold bind at 1.
  rewrite (import_loop good fields) by exact HF.
  cbn [for_each]. unfold bind at 1. unfold import_body at 1.
  unfold key_fields in Hbad. run.
  destruct (get_item bad "id") as [key_id|].
  2:{ injection Hbad as <-. reflexivity. }
  destruct (get_item bad "spec") as [spec|].
  2:{ injection Hbad as <-. reflexivity. }
  destruct (get_item spec "resource") as [resource|].
  2:{ injection Hbad as <-. reflexivity. }
  destruct (get_item resource "id") as [rid|]; [discriminate|].
  injection Hbad as <-. reflexivity.
Qed.

(** X13.  [import_api_keys] does not look at the keys already held: run
    twice against a server that answers the same, it leaves every key of
    the listing twice in [_api_keys]. *)
Theorem import_api_keys_twice
    (w : World ServiceAccount) (resp : Response) (body : value)
    (entries : list value) (fields : list (value * value)) :
  let self := w_self w in
  let r := GET (PyStr (api_url client ++ api_keys_path ++ "?owner="
                       ++ py_str (_id (super self)))) in
  let keys := map (imported_key (_id (super self))) fields in
  respond client (w_net w) r = Ok resp ->
  respond client (w_net w ++ [r])%list r = Ok resp ->
  json resp = Ok body ->
  get_item body "data" = Ok (PyList entries) ->
  Forall2 (fun e f => key_fields e = Ok f) entries fields ->
  (import_api_keys client ;; import_api_keys client) w =
  (Ok tt,
   {| w_self := with_api_keys (_api_keys self ++ keys ++ keys)%list self;
      w_net := (w_net w ++ [r; r])%list |}).
Proof.
  intros self r keys Hr Hr2 Hj Hd HF.
  unfold bind.
  rewrite (import_api_keys_runs w resp body entries fields Hr Hj Hd HF).
  fold self r keys.
  pose proof (import_api_keys_runs
                {| w_self := with_api_keys (_api_keys self ++ keys)%list self;
                   w_net := (w_net w ++ [r])%list |}
                resp body entries fields) as H2.
  cbv zeta in H2. cbn [w_self w_net] in H2.
  assert (Hsame : super (with_api_keys (_api_keys self ++ keys)%list self)
                  = super self) by (destruct self; reflexivity).
  rewrite Hsame in H2. fold r keys in H2.
  rewrite (H2 Hr2 Hj Hd HF).
  destruct self as [b ks]. cbn. rewrite <- !app_assoc. reflexivity.
Qed.

End ImportMore.

Section CredentialMore.

Context `{CaseTables}.
Variable client : Client.

Lemma title_from_nonempty (flag : bool) (s : string) :
  truthy (PyStr s) = true -> truthy (PyStr (title_from flag s)) = true.
Proof. destruct s; [discriminate|reflexivity]. Qed.

Lemma replace_colons_nonempty (s : string) :
  truthy (PyStr s) = true -> truthy (PyStr (replace "::" " " s)) = true.
Proof.
  destruct s as [|c s]; [discriminate|]. intros _.
  unfold replace. cbn [replace_from].
  destruct (String.prefix "::" (String c s)); reflexivity.
Qed.

Lemma title_nonempty (s : string) :
  truthy (PyStr s) = true -> truthy (PyStr (title s)) = true.
Proof.
  intros Hs. unfold title. destruct (is_ascii s).
  - apply title_from_nonempty, Hs.
  - assert (Hne : s <> EmptyString) by (destruct s; [discriminate|discriminate]).
    apply title_unicode_nonempty in Hne.
    destruct (title_unicode s); [contradiction|reflexivity].
Qed.

Lemma default_description_nonempty (s : string) :
  truthy (PyStr s) = true -> truthy (PyStr (default_description s)) = true.
Proof.
  intros Hs. apply title_nonempty, replace_colons_nonempty, Hs.
Qed.

Lemma default_display_name_nonempty (owner resource : value) :
  truthy (PyStr (default_display_name owner resource)) = true.
Proof.
  unfold default_display_name. destruct (py_str owner); reflexivity.
Qed.

(** X14.  The two checks of [create] come in a fixed order and name what
    is missing: with no owner id the message is about the owner, whatever
    the resource id is; with an owner id and no resource id it is about
    the resource.  Neither path touches the object or the log. *)
Theorem create_error_messages
    (owner_arg resource_arg name_arg description_arg : value) (w : World ApiKey) :
  (truthy owner_arg = false ->
   truthy (_owner_id (w_self w)) = false ->
   ApiKey_create client owner_arg resource_arg name_arg description_arg w
   = (Raise (AttributeError "Owner ID must be specified"), w))
  /\ (truthy (if truthy owner_arg then owner_arg else _owner_id (w_self w)) = true ->
      truthy resource_arg = false ->
      truthy (_resource_id (w_self w)) = false ->
      ApiKey_create client owner_arg resource_arg name_arg description_arg w
      = (Raise (AttributeError "Resource ID must be specified"), w)).
Proof.
  split.
  - intros Ha Hs. rewrite ApiKey_create_runs, Ha, Hs. reflexivity.
  - intros Ho Ha Hs. rewrite ApiKey_create_runs, Ha, Hs.
    destruct (truthy owner_arg); cbn [negb andb]; [reflexivity|].
    rewrite Ho. reflexivity.
Qed.

(** X15.  [create] sends at most one request, and when it sends one it is
    a POST to the collection whose owner id, resource id, display name and
    description all pass [if x]: no empty and no [None] field ever leaves
    in the payload of a key. *)
Theorem create_sends_filled_fields
    (owner_arg resource_arg name_arg description_arg : value) (w : World ApiKey) :
  let sent :=
    w_net (snd (ApiKey_create client owner_arg resource_arg name_arg
                              description_arg w)) in
  sent = w_net w
  \/ exists owner resource display_name description,
       sent = (w_net w ++ [POST (collection_url client (super (w_self w)))
                                (create_payload owner resource display_name
                                                description)])%list
       /\ truthy owner = true
       /\ truthy resource = true
       /\ truthy display_name = true
       /\ truthy description = true.
Proof.
  intros sent. subst sent. rewrite ApiKey_create_runs.
  set (owner := if truthy owner_arg then owner_arg else _owner_id (w_self w)).
  set (resource := if truthy resource_arg then resource_arg
                   else _resource_id (w_self w)).
  set (display_name := resolve name_arg (_name (super (w_self w)))
                         (PyStr (default_display_name owner resource))).
  destruct (negb (truthy owner_arg) && negb (truthy (_owner_id (w_self w))))
    eqn:Co; [left; reflexivity|].
  destruct (negb (truthy resource_arg) && negb (truthy (_resource_id (w_self w))))
    eqn:Cr; [left; reflexivity|].
  assert (Ho : truthy owner = true).
  { subst owner. destruct (truthy owner_arg) eqn:E; [exact E|].
    destruct (truthy (_owner_id (w_self w))); [reflexivity|discriminate]. }
  assert (Hr : truthy resource = true).
  { subst resource. destruct (truthy resource_arg) eqn:E; [exact E|].
    destruct (truthy (_resource_id (w_self w))); [reflexivity|discriminate]. }
  assert (Hn : truthy display_name = true).
  { subst display_name. unfold resolve.
    destruct (truthy name_arg) eqn:E; [exact E|].
    destruct (truthy (_name (super (w_self w)))) eqn:E'; [exact E'|].
    apply default_display_name_nonempty. }
  assert (filled : forall description,
             truthy description = true ->
             w_net (snd ((req <- send client
                                   (POST (collection_url client (super (w_self w)))
                                         (create_payload owner resource
                                                         display_name description)) ;;
                          absorb req) w)) = w_net w
             \/ exists o r n d,
                  w_net (snd ((req <- send client
                                        (POST (collection_url client (super (w_self w)))
                                              (create_payload owner resource
                                                              display_name description)) ;;
                               absorb req) w))
                  = (w_net w ++ [POST (collection_url client (super (w_self w)))
                                      (create_payload o r n d)])%list
                  /\ truthy o = true /\ truthy r = true
                  /\ truthy n = true /\ truthy d = true).
  { intros description Hd. right.
    exists owner, resource, display_name, description.
    rewrite send_absorb_net. auto. }
  destruct (truthy description_arg) eqn:Ed; [apply filled; exact Ed|].
  destruct (truthy (_description (super (w_self w)))) eqn:Es;
    [apply filled; exact Es|].
  destruct display_name as [| | |s| |] eqn:En;
    try (left; reflexivity).
  cbn [call_replace call_title]. apply filled.
  apply default_description_nonempty. exact Hn.
Qed.

(** [create] past its checks: the request, then the reply. *)
Lemma ApiKey_create_sends
    (owner_arg resource_arg name_arg description_arg : value)
    (w : World ApiKey) (s : string) :
  let self := w_self w in
  let owner := if truthy owner_arg then owner_arg else _owner_id self in
  let resource := if truthy resource_arg then resource_arg else _resource_id self in
  truthy owner = true ->
  truthy resource = true ->
  resolve name_arg (_name (super self))
          (PyStr (default_display_name owner resource)) = PyStr s ->
  ApiKey_create client owner_arg resource_arg name_arg description_arg w
  = (req <- send client
              (POST (collection_url client (super self))
                    (create_payload owner resource (PyStr s)
                       (resolve description_arg (_description (super self))
                                (PyStr (default_description s))))) ;;
     absorb req) w.
Proof.
  intros self owner resource Ho Hr Hs.
  rewrite ApiKey_create_runs. fold self owner resource. rewrite Hs.
  assert (Co : negb (truthy owner_arg) && negb (truthy (_owner_id self)) = false).
  { subst owner. destruct (truthy owner_arg); cbn; [reflexivity|].
    rewrite Ho. reflexivity. }
  assert (Cr : negb (truthy resource_arg) && negb (truthy (_resource_id self))
               = false).
  { subst resource. destruct (truthy resource_arg); cbn; [reflexivity|].
    rewrite Hr. reflexivity. }
  rewrite Co, Cr. unfold resolve, default_description.
  destruct (truthy description_arg); [reflexivity|].
  destruct (truthy (_description (super self))); reflexivity.
Qed.

(** X16.  When the request of [create] fails (the transport raises, the
    body is not JSON, or it has no ["spec"]), the exception reaches the
    caller and the key is exactly as before the call; the request stays
    in the log. *)
Theorem create_failure_leaves_key
    (owner_arg resource_arg name_arg description_arg : value)
    (w : World ApiKey) (s : string) :
  let self := w_self w in
  let owner := if truthy owner_arg then owner_arg else _owner_id self in
  let resource := if truthy resource_arg then resource_arg else _resource_id self in
  let r := POST (collection_url client (super self))
                (create_payload owner resource (PyStr s)
                   (resolve description_arg (_description (super self))
                            (PyStr (default_description s)))) in
  let failed e :=
    ApiKey_create client owner_arg resource_arg name_arg description_arg w
    = (Raise e, {| w_self := self; w_net := (w_net w ++ [r])%list |}) in
  truthy owner = true ->
  truthy resource = true ->
  resolve name_arg (_name (super self))
          (PyStr (default_display_name owner resource)) = PyStr s ->
  (forall e, respond client (w_net w) r = Raise e -> failed e)
  /\ (forall resp e,
        respond client (w_net w) r = Ok resp -> json resp = Raise e -> failed e)
  /\ (forall resp reply e,
        respond client (w_net w) r = Ok resp -> json resp = Ok reply ->
        get_item reply "spec" = Raise e -> failed e).
Proof.
  intros self owner resource r failed Ho Hr Hs. subst failed. cbv beta.
  rewrite (ApiKey_create_sends _ _ _ _ w s Ho Hr Hs).
  subst r owner resource self. repeat split.
  - intros e E. unfold bind at 1, send. rewrite E. reflexivity.
  - intros resp e E Hj. unfold bind at 1, send. rewrite E.
    unfold absorb. run. rewrite Hj. reflexivity.
  - intros resp reply e E Hj Hsp. unfold bind at 1, send. rewrite E.
    unfold absorb. run. rewrite Hj, Hsp. reflexivity.
Qed.

(** X17.  [create] stores what it reads as it goes.  A reply that has
    everything but ["spec"]["secret"] makes it raise the [KeyError] for
    the secret after id, link, owner id and resource id have been
    overwritten from the reply; the secret keeps its former value. *)
Theorem create_without_secret_is_partial
    (owner_arg resource_arg name_arg description_arg : value)
    (w : World ApiKey) (s : string)
    (resp : Response)
    (reply spec metadata owner_obj resource_obj new_id link new_owner new_resource : value)
    (e : exn) :
  let self := w_self w in
  let owner := if truthy owner_arg then owner_arg else _owner_id self in
  let resource := if truthy resource_arg then resource_arg else _resource_id self in
  let r := POST (collection_url client (super self))
                (create_payload owner resource (PyStr s)
                   (resolve description_arg (_description (super self))
                            (PyStr (default_description s)))) in
  truthy owner = true ->
  truthy resource = true ->
  resolve name_arg (_name (super self))
          (PyStr (default_display_name owner resource)) = PyStr s ->
  respond client (w_net w) r = Ok resp ->
  json resp = Ok reply ->
  get_item reply "spec" = Ok spec ->
  get_item reply "id" = Ok new_id ->
  get_item reply "metadata" = Ok metadata ->
  get_item metadata "self" = Ok link ->
  get_item spec "owner" = Ok owner_obj ->
  get_item owner_obj "id" = Ok new_owner ->
  get_item spec "resource" = Ok resource_obj ->
  get_item resource_obj "id" = Ok new_resource ->
  get_item spec "secret" = Raise e ->
  ApiKey_create client owner_arg resource_arg name_arg description_arg w
  = (Raise e,
     {| w_self :=
          {| ApiKey_super := with_href link (with_id new_id (super self));
             _resource_id := new_resource;
             _owner_id := new_owner;
             _secret := _secret self |};
        w_net := (w_net w ++ [r])%list |}).
Proof.
  intros self owner resource r Ho Hr Hs Hresp Hj Hsp Hi Hm Hl Hoo Hoi Hro Hri Hsec.
  rewrite (ApiKey_create_sends _ _ _ _ w s Ho Hr Hs).
  subst r owner resource self.
  unfold bind at 1, send. rewrite Hresp. unfold absorb. run.
  rewrite Hj, Hsp, Hi, Hm, Hl. cbn [w_self w_net].
  rewrite Hoo, Hoi, Hro, Hri, Hsec.
  destruct w as [[b rid oid sec] net]. reflexivity.
Qed.

(** X18.  After a [create] that returned, a second [create()] with no
    argument posts the owner id and resource id the first reply carried,
    not the ones first sent; a key without a name of its own gets its
    display name and description from those. *)
Theorem create_again_uses_reply
    (owner_arg resource_arg name_arg description_arg : value)
    (w w1 : World ApiKey) (resp : Response) :
  ApiKey_create client owner_arg resource_arg name_arg description_arg w
  = (Ok resp, w1) ->
  truthy (_owner_id (w_self w1)) = true ->
  truthy (_resource_id (w_self w1)) = true ->
  truthy (_name (super (w_self w))) = false ->
  truthy (_description (super (w_self w))) = false ->
  let owner := _owner_id (w_self w1) in
  let resource := _resource_id (w_self w1) in
  (exists reply spec owner_obj resource_obj,
      json resp = Ok reply
      /\ get_item reply "spec" = Ok spec
      /\ get_item spec "owner" = Ok owner_obj
      /\ get_item owner_obj "id" = Ok owner
      /\ get_item spec "resource" = Ok resource_obj
      /\ get_item resource_obj "id" = Ok resource)
  /\ w_net (snd (ApiKey_create client PyNone PyNone PyNone PyNone w1))
     = (w_net w1
        ++ [POST (collection_url client (super (w_self w)))
                 (create_payload owner resource
                    (PyStr (default_display_name owner resource))
                    (PyStr (default_description
                              (default_display_name owner resource))))])%list.
Proof.
  intros E Ho Hr Hn Hd owner resource.
  pose proof (key_step_frame client
                (KCreate owner_arg resource_arg name_arg description_arg) w)
    as (Hp & Hn' & Hd' & _).
  cbn [key_step] in Hp, Hn', Hd'. rewrite E in Hp, Hn', Hd'. cbn [snd] in *.
  split.
  - apply create_ok_absorbed in E. destruct E as (w0 & _ & E).
    apply absorb_ok in E.
    destruct E as (reply & spec & md & o & r & Ej & Es & _ & _ & _ & Eo & Eoi
                   & Er & Eri & _).
    exists reply, spec, o, r. repeat split; assumption.
  - rewrite (ApiKey_create_sends PyNone PyNone PyNone PyNone w1
               (default_display_name owner resource)).
    + cbn [truthy]. fold owner resource.
      rewrite send_absorb_net. unfold resolve. cbn [truthy].
      rewrite Hd', Hd. unfold collection_url. rewrite Hp. reflexivity.
    + exact Ho.
    + exact Hr.
    + unfold resolve. cbn [truthy]. rewrite Hn', Hn. reflexivity.
Qed.

End CredentialMore.

Section AccountMore.

Context `{CaseTables}.
Variable client : Client.

(** Every way [ServiceAccount.create] can end. *)
Lemma ServiceAccount_create_outcome (w : World ServiceAccount)
    (P : result Response * World ServiceAccount -> Prop) :
  let self := w_self w in
  (forall e, P (Raise e, w)) ->
  (forall description,
      let r := POST (collection_url client (super self))
                    (account_payload (_name (super self)) description) in
      (forall e, P (Raise e, {| w_self := self; w_net := (w_net w ++ [r])%list |}))
      /\ (forall e link,
             P (Raise e,
                {| w_self := with_super (with_href link (super self)) self;
                   w_net := (w_net w ++ [r])%list |}))
      /\ (forall resp body metadata link new_id,
             respond client (w_net w) r = Ok resp ->
             json resp = Ok body ->
             get_item body "metadata" = Ok metadata ->
             get_item metadata "self" = Ok link ->
             get_item body "id" = Ok new_id ->
             P (Ok resp,
                {| w_self := with_super (with_id new_id
                                           (with_href link (super self))) self;
                   w_net := (w_net w ++ [r])%list |}))) ->
  P (ServiceAccount_create client w).
Proof.
  intros self Hraise Hsent. subst self.
  destruct w as [[b ks] net].
  unfold ServiceAccount_create, collection_url, account_payload in *.
  run. cbn [super ServiceAccount_Inherits ServiceAccount_super] in *.
  assert (sends : forall description,
    P (match respond client net
               (POST (PyStr (api_url client ++ py_str (api_path b)))
                     (PyDict [("display_name", _name b);
                              ("description", description)])) with
       | Ok a =>
           match json a with
           | Ok a0 =>
               match get_item a0 "metadata" with
               | Ok a1 =>
                   match get_item a1 "self" with
                   | Ok a2 =>
                       match get_item a0 "id" with
                       | Ok a3 =>
                           (Ok a,
                            {| w_self := {| ServiceAccount_super :=
                                              with_id a3 (with_href a2 b);
                                            _api_keys := ks |};
                               w_net := (net ++
                                 [POST (PyStr (api_url client ++ py_str (api_path b)))
                                       (PyDict [("display_name", _name b);
                                                ("description", description)])])%list |})
                       | Raise e =>
                           (Raise e,
                            {| w_self := {| ServiceAccount_super := with_href a2 b;
                                            _api_keys := ks |};
                               w_net := (net ++
                                 [POST (PyStr (api_url client ++ py_str (api_path b)))
                                       (PyDict [("display_name", _name b);
                                                ("description", description)])])%list |})
                       end
                   | Raise e =>
                       (Raise e,
                        {| w_self := {| ServiceAccount_super := b; _api_keys := ks |};
                           w_net := (net ++
                             [POST (PyStr (api_url client ++ py_str (api_path b)))
                                   (PyDict [("display_name", _name b);
                                            ("description", description)])])%list |})
                   end
               | Raise e =>
                   (Raise e,
                    {| w_self := {| ServiceAccount_super := b; _api_keys := ks |};
                       w_net := (net ++
                         [POST (PyStr (api_url client ++ py_str (api_path b)))
                               (PyDict [("display_name", _name b);
                                        ("description", description)])])%list |})
               end
           | Raise e =>
               (Raise e,
                {| w_self := {| ServiceAccount_super := b; _api_keys := ks |};
                   w_net := (net ++
                     [POST (PyStr (api_url client ++ py_str (api_path b)))
                           (PyDict [("display_name", _name b);
                                    ("description", description)])])%list |})
           end
       | Raise e =>
           (Raise e,
            {| w_self := {| ServiceAccount_super := b; _api_keys := ks |};
               w_net := (net ++
                 [POST (PyStr (api_url client ++ py_str (api_path b)))
                       (PyDict [("display_name", _name b);
                                ("description", description)])])%list |})
       end)).
  { intros description.
    destruct (Hsent description) as (Hsame & Hlink & Hok).
    destruct (respond client net _) as [resp|e] eqn:Er; [|apply Hsame].
    destruct (json resp) as [body|e] eqn:Ej; [|apply Hsame].
    destruct (get_item body "metadata") as [md|e] eqn:Em; [|apply Hsame].
    destruct (get_item md "self") as [l|e] eqn:El; [|apply Hsame].
    destruct (get_item body "id") as [i|e] eqn:Ei.
    - apply (Hok resp body md l i); first [reflexivity|assumption].
    - apply Hlink. }
  destruct (truthy (_description b)); cbn [negb].
  - apply sends.
  - cbn [w_self w_net ServiceAccount_super].
    destruct (call_title (_name b)) as [d|e]; [apply sends|apply Hraise].
Qed.

(** X19.  In every outcome, [ServiceAccount.create] leaves the display
    name, the description, the path and the list of keys of the account
    as they were, and has sent either nothing or one POST to the
    collection, carrying the stored display name. *)
Theorem account_create_keeps (w : World ServiceAccount) :
  let self := w_self w in
  let w' := snd (ServiceAccount_create client w) in
  _name (super (w_self w')) = _name (super self)
  /\ _description (super (w_self w')) = _description (super self)
  /\ api_path (super (w_self w')) = api_path (super self)
  /\ _api_keys (w_self w') = _api_keys self
  /\ (w_net w' = w_net w
      \/ exists description,
           w_net w' = (w_net w ++ [POST (collection_url client (super self))
                                        (account_payload (_name (super self))
                                                         description)])%list).
Proof.
  intros self w'. subst w'.
  apply (ServiceAccount_create_outcome w); fold self.
  - intros e. cbn [snd]. fold self. repeat split. left. reflexivity.
  - intros description r. subst r.
    destruct self as [b ks].
    repeat split; intros; cbn; right; exists description; reflexivity.
Qed.

(** X20.  When the request of [ServiceAccount.create] fails (the
    transport raises), the exception reaches the caller and the account
    is as before.  When the reply has a ["metadata"]["self"] and no
    ["id"], the link is stored all the same before the [KeyError] is
    raised, and the id stays what it was. *)
Theorem account_create_failures (w : World ServiceAccount) :
  let self := w_self w in
  let r := account_request client (super self) in
  truthy (_description (super self)) = true
  \/ (exists n, _name (super self) = PyStr n) ->
  (forall e,
      respond client (w_net w) r = Raise e ->
      ServiceAccount_create client w
      = (Raise e, {| w_self := self; w_net := (w_net w ++ [r])%list |}))
  /\ (forall resp body metadata link e,
        respond client (w_net w) r = Ok resp ->
        json resp = Ok body ->
        get_item body "metadata" = Ok metadata ->
        get_item metadata "self" = Ok link ->
        get_item body "id" = Raise e ->
        ServiceAccount_create client w
        = (Raise e,
           {| w_self := with_super (with_href link (super self)) self;
              w_net := (w_net w ++ [r])%list |})).
Proof.
  intros self r Hpre. subst r self. destruct w as [[b ks] net].
  unfold ServiceAccount_create, account_request, account_payload,
    collection_url, account_description.
  cbn [super ServiceAccount_Inherits ServiceAccount_super w_self w_net] in *.
  split.
  - intros e Hr. run.
    cbn [super ServiceAccount_Inherits ServiceAccount_super w_self w_net] in *.
    destruct (truthy (_description b)); cbn [negb w_self w_net ServiceAccount_super].
    + rewrite Hr. reflexivity.
    + destruct Hpre as [?|[n Hn]]; [discriminate|].
      rewrite Hn in *. cbn [call_title py_str] in *. rewrite Hr. reflexivity.
  - intros resp body metadata link e Hr Hj Hm Hl Hi. run.
    cbn [super ServiceAccount_Inherits ServiceAccount_super w_self w_net] in *.
    destruct (truthy (_description b)); cbn [negb w_self w_net ServiceAccount_super].
    + rewrite Hr, Hj, Hm, Hl. cbn [w_self w_net]. rewrite Hi. reflexivity.
    + destruct Hpre as [?|[n Hn]]; [discriminate|].
      rewrite Hn in *. cbn [call_title py_str] in *.
      rewrite Hr, Hj, Hm, Hl. cbn [w_self w_net]. rewrite Hi. reflexivity.
Qed.

(** X21.  After a [ServiceAccount.create] that returned with a non-empty
    link, [read], [update] and [delete] are addressed to that link, the
    ["metadata"]["self"] of the reply, and not to an address built from
    the id. *)
Theorem account_create_then_calls
    (w w' : World ServiceAccount) (resp : Response) (d : value) :
  ServiceAccount_create client w = (Ok resp, w') ->
  truthy (_href (super (w_self w'))) = true ->
  exists body metadata link,
    json resp = Ok body
    /\ get_item body "metadata" = Ok metadata
    /\ get_item metadata "self" = Ok link
    /\ read client w'
       = (respond client (w_net w') (GET link),
          {| w_self := w_self w'; w_net := (w_net w' ++ [GET link])%list |})
    /\ update client d w'
       = (respond client (w_net w') (PATCH link (PyDict [("description", d)])),
          {| w_self := w_self w';
             w_net := (w_net w'
                       ++ [PATCH link (PyDict [("description", d)])])%list |})
    /\ delete client w'
       = (respond client (w_net w') (DELETE link),
          {| w_self := w_self w'; w_net := (w_net w' ++ [DELETE link])%list |}).
Proof.
  revert w' resp.
  apply (ServiceAccount_create_outcome w
           (fun p => forall w' resp,
                p = (Ok resp, w') ->
                truthy (_href (super (w_self w'))) = true ->
                exists body metadata link,
                  json resp = Ok body
                  /\ get_item body "metadata" = Ok metadata
                  /\ get_item metadata "self" = Ok link
                  /\ read client w'
                     = (respond client (w_net w') (GET link),
                        {| w_self := w_self w';
                           w_net := (w_net w' ++ [GET link])%list |})
                  /\ update client d w'
                     = (respond client (w_net w')
                                (PATCH link (PyDict [("description", d)])),
                        {| w_self := w_self w';
                           w_net := (w_net w'
                                     ++ [PATCH link
                                           (PyDict [("description", d)])])%list |})
                  /\ delete client w'
                     = (respond client (w_net w') (DELETE link),
                        {| w_self := w_self w';
                           w_net := (w_net w' ++ [DELETE link])%list |}))).
  - intros e w' resp E. discriminate.
  - intros description r. split; [|split].
    + intros e w' resp E. discriminate.
    + intros e link w' resp E. discriminate.
    + intros resp0 body metadata link new_id Hr Hj Hm Hl Hi w' resp E Hlink.
      injection E as <- <-.
      exists body, metadata, link.
      split; [assumption|split; [assumption|split; [assumption|]]].
      match type of Hlink with
      | truthy (_href (super (w_self ?W))) = true =>
          pose proof (calls_run client d W) as Hc;
          assert (Hstored : _href (super (w_self W)) = link)
            by (destruct w as [[b ks] net]; reflexivity)
      end.
      cbv zeta in Hc. rewrite Hstored in Hc, Hlink. rewrite Hlink in Hc.
      exact Hc.
Qed.

(** X22.  The id given to the constructor of [ServiceAccount] is never
    looked up: on the account just built, [read] goes to
    [api_url + "/iam/v2/service-accounts/None"], and [set_from_read()]
    with no argument does nothing at all when there is no display name
    either. *)
Theorem constructor_id_is_never_read
    (obj_id_arg display_name description : value) (net : list Request) :
  let w := {| w_self := new_ServiceAccount obj_id_arg display_name description;
              w_net := net |} in
  let u := PyStr (api_url client ++ "/iam/v2/service-accounts/None") in
  read client w
  = (respond client net (GET u),
     {| w_self := w_self w; w_net := (net ++ [GET u])%list |})
  /\ (truthy display_name = false ->
      set_from_read client PyNone PyNone w = (Ok tt, w)).
Proof.
  intros w u. split.
  - reflexivity.
  - intros Hn. unfold set_from_read. run. cbn. rewrite Hn. reflexivity.
Qed.

End AccountMore.

(* ===================================================================== *)
(** ** The statements on concrete objects *)
(* ===================================================================== *)

Section AsciiText.

Context `{CaseTables}.

(** On a string of ASCII characters [title] is CPython's loop, whatever
    the case tables say elsewhere. *)
Lemma title_of_ascii (s : string) :
  is_ascii s = true -> title s = title_ascii s.
Proof. intros E. unfold title. rewrite E. reflexivity. Qed.

Example default_description_o1_r1 : default_description "o1::r1" = "O1 R1".
Proof. reflexivity. Qed.

Example title_svc_a : title "svc-a" = "Svc-A".
Proof. reflexivity. Qed.

Example title_apostrophe : title "they're HERE" = "They'Re Here".
Proof. reflexivity. Qed.

End AsciiText.

Section Concrete.

Import Stub.

#[local] Existing Instance ascii_text.

Example title_o1_r1 :
  default_description (default_display_name (PyStr "o1") (PyStr "r1")) = "O1 R1".
Proof. reflexivity. Qed.

(** An empty string stored as link does not pass [if self._href]: the
    link is derived, as if none were stored. *)
Example href_empty_link :
  href failing (snd (set_href (PyStr "") (start key_with_id)))
  = (Ok (PyStr "https://x/iam/v2/api-keys/k-1"),
     snd (set_href (PyStr "") (start key_with_id))).
Proof. reflexivity. Qed.

(** [ApiKey] keeps the [obj_id] it is built with. *)
Example ApiKey_init_keeps_obj_id : _id (super key_with_id) = PyStr "k-1".
Proof. reflexivity. Qed.

Example title_my_service : title "my service" = "My Service".
Proof. reflexivity. Qed.

(** C1, as stated, fails: two entries of the listing are named ["svc-a"];
    the first one found is ["sa-1"], and the account ends up as ["sa-2"]. *)
Lemma set_from_read_first_match_counterexample :
  first_match (PyStr "svc-a") accounts = Some first_entry
  /\ get_item first_entry "id" = Ok (PyStr "sa-1")
  /\ _id (super (w_self (snd (set_from_read (answering accounts_listing)
                                 (PyStr "svc-a") PyNone (start svc_a)))))
     = PyStr "sa-2"
  /\ w_self (snd (set_from_read (answering accounts_listing)
                    (PyStr "svc-a") PyNone (start svc_a)))
     <> adopted first_entry svc_a.
Proof.
  repeat split. vm_compute. discriminate.
Qed.

Lemma set_from_read_by_name_witness :
  set_from_read (answering accounts_listing) (PyStr "svc-a") PyNone (start svc_a)
  = (Ok tt,
     {| w_self := adopted second_entry svc_a;
        w_net := [GET (PyStr "https://x/iam/v2/service-accounts")] |}).
Proof.
  refine (proj2 (set_from_read_by_name (answering accounts_listing)
                   (PyStr "svc-a") PyNone (start svc_a) eq_refl eq_refl)
                eq_refl eq_refl {| json := Ok accounts_listing |}
                accounts_listing accounts
                eq_refl eq_refl eq_refl _).
  repeat constructor; eexists; reflexivity.
Defined.

Lemma create_requires_owner_and_resource_witness :
  exists msg,
    ApiKey_create failing PyNone PyNone (PyStr "my key") PyNone
                  (start key_without_owner)
    = (Raise (AttributeError msg), start key_without_owner).
Proof.
  apply create_requires_owner_and_resource. left. split; reflexivity.
Defined.

Lemma href_explicit_or_derived_witness :
  href failing (start key_with_link)
  = (Ok (PyStr "https://x/keys/k-9"), start key_with_link)
  /\ href failing (start key_with_id)
     = (Ok (PyStr "https://x/iam/v2/api-keys/k-1"), start key_with_id).
Proof.
  split.
  - exact (proj1 (href_explicit_or_derived failing (start key_with_link)) eq_refl).
  - exact (proj1 (proj2 (href_explicit_or_derived failing (start key_with_id)))
                 "/iam/v2/api-keys" "k-1" eq_refl eq_refl eq_refl).
Defined.

Lemma create_payload_defaults_witness :
  w_net (snd (ApiKey_create failing PyNone PyNone PyNone PyNone (start key_o1_r1)))
  = [POST (PyStr "https://x/iam/v2/api-keys")
          (create_payload (PyStr "o1") (PyStr "r1") (PyStr "o1::r1")
                          (PyStr "O1 R1"))].
Proof.
  exact (proj2 (create_payload_defaults failing PyNone PyNone PyNone PyNone
                  (start key_o1_r1) eq_refl eq_refl)
               eq_refl eq_refl eq_refl eq_refl).
Defined.

(** C5, as stated, fails: an account built with no display name and no
    description raises in [create], and nothing is sent. *)
Lemma create_nameless_counterexample :
  ServiceAccount_create (answering account_reply) (start nameless)
  = (Raise (AttributeError "'NoneType' object has no attribute 'title'"),
     start nameless)
  /\ w_net (snd (ServiceAccount_create (answering account_reply) (start nameless)))
     = [].
Proof. split; reflexivity. Qed.

Lemma ServiceAccount_create_spec_witness :
  ServiceAccount_create (answering account_reply) (start svc_a)
  = (Ok account_response,
     {| w_self := with_super (with_id (PyStr "sa-1")
                                (with_href (PyStr "https://x/sa-1") (super svc_a)))
                             svc_a;
        w_net := [POST (PyStr "https://x/iam/v2/service-accounts")
                       (account_payload (PyStr "svc-a") (PyStr "Svc-A"))] |})
  /\ obj_id (snd (ServiceAccount_create (answering account_reply) (start svc_a)))
     = (Ok (PyStr "sa-1"),
        snd (ServiceAccount_create (answering account_reply) (start svc_a)))
  /\ href (answering account_reply)
          (snd (ServiceAccount_create (answering account_reply) (start svc_a)))
     = (Ok (PyStr "https://x/sa-1"),
        snd (ServiceAccount_create (answering account_reply) (start svc_a))).
Proof.
  pose proof (proj2 (ServiceAccount_create_spec (answering account_reply)
                       (start svc_a)
                       (or_intror (ex_intro _ "svc-a" eq_refl)))
                    account_response account_reply
                    (PyDict [("self", PyStr "https://x/sa-1")])
                    (PyStr "https://x/sa-1") (PyStr "sa-1")
                    eq_refl eq_refl eq_refl eq_refl eq_refl) as (Hc & Hi & Hh).
  split; [|split].
  - exact Hc.
  - exact Hi.
  - exact (Hh eq_refl).
Defined.

Lemma create_reads_back_reply_witness :
  exists reply spec metadata owner resource,
    json key_response = Ok reply
    /\ get_item reply "spec" = Ok spec
    /\ get_item reply "id" = Ok (_id (super (w_self key_after_create)))
    /\ get_item reply "metadata" = Ok metadata
    /\ get_item metadata "self" = Ok (_href (super (w_self key_after_create)))
    /\ get_item spec "owner" = Ok owner
    /\ get_item owner "id" = Ok (_owner_id (w_self key_after_create))
    /\ get_item spec "resource" = Ok resource
    /\ get_item resource "id" = Ok (_resource_id (w_self key_after_create))
    /\ get_item spec "secret" = Ok (_secret (w_self key_after_create)).
Proof.
  exact (proj1 (create_reads_back_reply (answering key_reply))
               PyNone PyNone PyNone PyNone (start key_o1_r1) key_after_create
               key_response eq_refl).
Defined.

Example key_after_create_fields :
  _owner_id (w_self key_after_create) = PyStr "sa-000001"
  /\ _resource_id (w_self key_after_create) = PyStr "lkc-000001"
  /\ _secret (w_self key_after_create) = PyStr "s3cr3t"
  /\ _id (super (w_self key_after_create)) = PyStr "k-1".
Proof. repeat split. Qed.

Lemma read_update_delete_frame_witness :
  exists reply spec,
    json key_response = Ok reply
    /\ get_item reply "spec" = Ok spec
    /\ get_item spec "secret"
       = Ok (_secret (w_self (Calls.perform_all (answering key_reply)
                                [Calls.Read; Calls.Update (PyStr "rotated");
                                 Calls.Read; Calls.Delete]
                                key_after_create))).
Proof.
  exact (proj2 (proj2 (proj2 (proj2
           (read_update_delete_frame (answering key_reply)))))
           PyNone PyNone PyNone PyNone (start key_o1_r1) key_after_create
           key_response
           [Calls.Read; Calls.Update (PyStr "rotated"); Calls.Read; Calls.Delete]
           eq_refl).
Defined.

Lemma href_without_id_witness :
  href failing (start (new_ServiceAccount (PyStr "sa-7") (PyStr "svc-a") PyNone))
  = (Ok (PyStr "https://x/iam/v2/service-accounts/None"),
     start (new_ServiceAccount (PyStr "sa-7") (PyStr "svc-a") PyNone)).
Proof.
  exact (href_without_id failing
           (start (new_ServiceAccount (PyStr "sa-7") (PyStr "svc-a") PyNone))
           eq_refl eq_refl).
Defined.

Lemma import_api_keys_appends_witness :
  import_api_keys (answering keys_listing) (start sa_1)
  = (Ok tt,
     {| w_self := with_api_keys
                    [new_ApiKey (PyStr "k-1") PyNone PyNone (PyStr "sa-1")
                                (PyStr "lkc-1");
                     new_ApiKey (PyStr "k-2") PyNone PyNone (PyStr "sa-1")
                                (PyStr "lkc-2")]
                    sa_1;
        w_net := [GET (PyStr "https://x/iam/v2/api-keys?owner=sa-1")] |}).
Proof.
  refine (proj1 (import_api_keys_appends (answering keys_listing) (start sa_1)
                   "sa-1" {| json := Ok keys_listing |} keys_listing keys
                   [(PyStr "k-1", PyStr "lkc-1"); (PyStr "k-2", PyStr "lkc-2")]
                   eq_refl eq_refl eq_refl eq_refl _)).
  repeat constructor.
Defined.

End Concrete.

Section ConcreteSessions.

Import Stub Samples.

#[local] Existing Instance ascii_text.

Lemma link_and_id_round_trips_witness :
  (set_href (PyStr "https://x/sa-9") ;; href failing) (start svc_a)
  = (Ok (PyStr "https://x/sa-9"),
     snd (set_href (PyStr "https://x/sa-9") (start svc_a)))
  /\ (set_obj_id (PyStr "sa-9") ;; href failing) created_account
     = (Ok (PyStr "https://x/sa-1"),
        snd (set_obj_id (PyStr "sa-9") created_account))
  /\ (set_href PyNone ;; href failing) created_account
     = (Ok (PyStr "https://x/iam/v2/service-accounts/sa-1"),
        snd (set_href PyNone created_account)).
Proof.
  split; [|split].
  - exact (proj1 (proj2 (link_and_id_round_trips failing (start svc_a)
                           (PyStr "https://x/sa-9"))) eq_refl).
  - exact (proj1 (proj2 (proj2 (link_and_id_round_trips failing created_account
                                  (PyStr "sa-9")))) eq_refl).
  - exact (proj2 (proj2 (proj2 (link_and_id_round_trips failing created_account
                                  PyNone)))
                 "/iam/v2/service-accounts" eq_refl).
Defined.

Lemma set_from_read_by_id_witness :
  set_from_read (answering account_reply) (PyStr "ignored") (PyStr "sa-1")
                (start svc_a)
  = (Ok tt,
     {| w_self := adopted account_reply svc_a;
        w_net := [GET (PyStr "https://x/iam/v2/service-accounts/sa-1")] |}).
Proof.
  exact (set_from_read_by_id (answering account_reply) (PyStr "ignored")
           (PyStr "sa-1") (start svc_a) account_response account_reply
           (PyStr "https://x/sa-1", PyStr "sa-1", PyStr "Svc-a", PyStr "svc-a")
           eq_refl eq_refl eq_refl eq_refl).
Defined.

Lemma set_from_read_by_id_failure_witness :
  set_from_read failing PyNone (PyStr "sa-1") (start svc_a)
  = (Raise (OtherError "ConnectionError"),
     {| w_self := sa_1;
        w_net := [GET (PyStr "https://x/iam/v2/service-accounts/sa-1")] |}).
Proof.
  exact (set_from_read_by_id_failure failing PyNone (PyStr "sa-1") (start svc_a)
           (OtherError "ConnectionError") eq_refl eq_refl).
Defined.

Lemma set_from_read_matches_exactly_witness :
  set_from_read (answering accounts_listing) (PyStr "Svc-a") PyNone (start svc_a)
  = (Ok tt,
     {| w_self := svc_a;
        w_net := [GET (PyStr "https://x/iam/v2/service-accounts")] |})
  /\ set_from_read (answering accounts_listing) (PyStr "svc-b") PyNone
                   (start svc_a)
     = (Ok tt,
        {| w_self := adopted other_entry svc_a;
           w_net := [GET (PyStr "https://x/iam/v2/service-accounts")] |}).
Proof.
  assert (shaped : Forall well_formed accounts)
    by (repeat constructor; eexists; reflexivity).
  split.
  - refine (proj1 (set_from_read_matches_exactly (answering accounts_listing)
                     (PyStr "Svc-a") PyNone (start svc_a) "Svc-a"
                     {| json := Ok accounts_listing |} accounts_listing accounts
                     eq_refl eq_refl eq_refl _ eq_refl eq_refl eq_refl eq_refl
                     shaped) _).
    + discriminate.
    + intros e [<-|[<-|[<-|[]]]]; discriminate.
  - refine (proj2 (set_from_read_matches_exactly (answering accounts_listing)
                     (PyStr "svc-b") PyNone (start svc_a) "svc-b"
                     {| json := Ok accounts_listing |} accounts_listing accounts
                     eq_refl eq_refl eq_refl _ eq_refl eq_refl eq_refl eq_refl
                     shaped)
                  [first_entry; second_entry] other_entry [] eq_refl eq_refl _).
    + discriminate.
    + intros e' [].
Defined.

Lemma set_from_read_listing_unavailable_witness :
  set_from_read failing PyNone PyNone (start svc_a)
  = (Raise (OtherError "ConnectionError"),
     {| w_self := svc_a;
        w_net := [GET (PyStr "https://x/iam/v2/service-accounts")] |})
  /\ set_from_read (answering account_reply) PyNone PyNone (start svc_a)
     = (Raise (KeyError "data"),
        {| w_self := svc_a;
           w_net := [GET (PyStr "https://x/iam/v2/service-accounts")] |}).
Proof.
  split.
  - exact (proj1 (set_from_read_listing_unavailable failing PyNone PyNone
                    (start svc_a) eq_refl eq_refl eq_refl eq_refl)
                 (OtherError "ConnectionError") eq_refl).
  - exact (proj2 (set_from_read_listing_unavailable (answering account_reply)
                    PyNone PyNone (start svc_a) eq_refl eq_refl eq_refl eq_refl)
                 account_response account_reply (KeyError "data")
                 eq_refl eq_refl eq_refl).
Defined.

Lemma set_from_read_stops_at_unnamed_entry_witness :
  set_from_read (answering broken_accounts_listing) PyNone PyNone (start svc_a)
  = (Raise (KeyError "display_name"),
     {| w_self := adopted first_entry svc_a;
        w_net := [GET (PyStr "https://x/iam/v2/service-accounts")] |}).
Proof.
  refine (set_from_read_stops_at_unnamed_entry (answering broken_accounts_listing)
            PyNone PyNone (start svc_a)
            {| json := Ok broken_accounts_listing |} broken_accounts_listing
            [first_entry] [second_entry] unnamed_entry (KeyError "display_name")
            eq_refl eq_refl eq_refl eq_refl eq_refl eq_refl eq_refl _ eq_refl).
  repeat constructor. eexists. reflexivity.
Defined.

Lemma import_api_keys_stops_at_malformed_witness :
  import_api_keys (answering broken_keys_listing) (start sa_1)
  = (Raise (KeyError "spec"),
     {| w_self := with_api_keys
                    [new_ApiKey (PyStr "k-1") PyNone PyNone (PyStr "sa-1")
                                (PyStr "lkc-1")]
                    sa_1;
        w_net := [GET (PyStr "https://x/iam/v2/api-keys?owner=sa-1")] |}).
Proof.
  refine (import_api_keys_stops_at_malformed (answering broken_keys_listing)
            (start sa_1) {| json := Ok broken_keys_listing |} broken_keys_listing
            [key_entry_k1] [key_entry_k1] key_entry_without_spec
            [(PyStr "k-1", PyStr "lkc-1")] (KeyError "spec")
            eq_refl eq_refl eq_refl _ eq_refl).
  repeat constructor.
Defined.

Lemma import_api_keys_twice_witness :
  (import_api_keys (answering keys_listing) ;;
   import_api_keys (answering keys_listing)) (start sa_1)
  = (Ok tt,
     {| w_self := with_api_keys
                    [new_ApiKey (PyStr "k-1") PyNone PyNone (PyStr "sa-1")
                                (PyStr "lkc-1");
                     new_ApiKey (PyStr "k-2") PyNone PyNone (PyStr "sa-1")
                                (PyStr "lkc-2");
                     new_ApiKey (PyStr "k-1") PyNone PyNone (PyStr "sa-1")
                                (PyStr "lkc-1");
                     new_ApiKey (PyStr "k-2") PyNone PyNone (PyStr "sa-1")
                                (PyStr "lkc-2")]
                    sa_1;
        w_net := [GET (PyStr "https://x/iam/v2/api-keys?owner=sa-1");
                  GET (PyStr "https://x/iam/v2/api-keys?owner=sa-1")] |}).
Proof.
  refine (import_api_keys_twice (answering keys_listing) (start sa_1)
            {| json := Ok keys_listing |} keys_listing keys
            [(PyStr "k-1", PyStr "lkc-1"); (PyStr "k-2", PyStr "lkc-2")]
            eq_refl eq_refl eq_refl eq_refl _).
  repeat constructor.
Defined.

Lemma create_error_messages_witness :
  ApiKey_create failing PyNone PyNone PyNone PyNone (start key_without_owner)
  = (Raise (AttributeError "Owner ID must be specified"),
     start key_without_owner)
  /\ ApiKey_create failing PyNone PyNone PyNone PyNone (start key_without_resource)
     = (Raise (AttributeError "Resource ID must be specified"),
        start key_without_resource).
Proof.
  split.
  - exact (proj1 (create_error_messages failing PyNone PyNone PyNone PyNone
                    (start key_without_owner)) eq_refl eq_refl).
  - exact (proj2 (create_error_messages failing PyNone PyNone PyNone PyNone
                    (start key_without_resource)) eq_refl eq_refl eq_refl).
Defined.

Lemma create_failure_leaves_key_witness :
  ApiKey_create failing PyNone PyNone PyNone PyNone (start key_o1_r1)
  = (Raise (OtherError "ConnectionError"),
     {| w_self := key_o1_r1;
        w_net := [POST (PyStr "https://x/iam/v2/api-keys")
                       (create_payload (PyStr "o1") (PyStr "r1") (PyStr "o1::r1")
                                       (PyStr "O1 R1"))] |}).
Proof.
  exact (proj1 (create_failure_leaves_key failing PyNone PyNone PyNone PyNone
                  (start key_o1_r1) "o1::r1" eq_refl eq_refl eq_refl)
               (OtherError "ConnectionError") eq_refl).
Defined.

Lemma create_without_secret_is_partial_witness :
  ApiKey_create (answering key_reply_without_secret) PyNone PyNone PyNone PyNone
                (start key_o1_r1)
  = (Raise (KeyError "secret"),
     {| w_self :=
          {| ApiKey_super := with_href (PyStr "https://x/keys/k-1")
                               (with_id (PyStr "k-1") (super key_o1_r1));
             _resource_id := PyStr "lkc-000001";
             _owner_id := PyStr "sa-000001";
             _secret := PyNone |};
        w_net := [POST (PyStr "https://x/iam/v2/api-keys")
                       (create_payload (PyStr "o1") (PyStr "r1") (PyStr "o1::r1")
                                       (PyStr "O1 R1"))] |}).
Proof.
  exact (create_without_secret_is_partial (answering key_reply_without_secret)
           PyNone PyNone PyNone PyNone (start key_o1_r1) "o1::r1"
           {| json := Ok key_reply_without_secret |} key_reply_without_secret
           (PyDict [("owner", PyDict [("id", PyStr "sa-000001")]);
                    ("resource", PyDict [("id", PyStr "lkc-000001")])])
           (PyDict [("self", PyStr "https://x/keys/k-1")])
           (PyDict [("id", PyStr "sa-000001")])
           (PyDict [("id", PyStr "lkc-000001")])
           (PyStr "k-1") (PyStr "https://x/keys/k-1")
           (PyStr "sa-000001") (PyStr "lkc-000001") (KeyError "secret")
           eq_refl eq_refl eq_refl eq_refl eq_refl eq_refl eq_refl eq_refl
           eq_refl eq_refl eq_refl eq_refl eq_refl eq_refl).
Defined.

Lemma create_again_uses_reply_witness :
  w_net (snd (ApiKey_create (answering key_reply) PyNone PyNone PyNone PyNone
                            key_after_create))
  = [POST (PyStr "https://x/iam/v2/api-keys")
          (create_payload (PyStr "o1") (PyStr "r1") (PyStr "o1::r1")
                          (PyStr "O1 R1"));
     POST (PyStr "https://x/iam/v2/api-keys")
          (create_payload (PyStr "sa-000001") (PyStr "lkc-000001")
                          (PyStr "sa-000001::lkc-000001")
                          (PyStr "Sa-000001 Lkc-000001"))].
Proof.
  exact (proj2 (create_again_uses_reply (answering key_reply)
                  PyNone PyNone PyNone PyNone (start key_o1_r1) key_after_create
                  key_response eq_refl eq_refl eq_refl eq_refl eq_refl)).
Defined.

Lemma account_create_failures_witness :
  ServiceAccount_create failing (start svc_a)
  = (Raise (OtherError "ConnectionError"),
     {| w_self := svc_a;
        w_net := [POST (PyStr "https://x/iam/v2/service-accounts")
                       (account_payload (PyStr "svc-a") (PyStr "Svc-A"))] |})
  /\ ServiceAccount_create (answering account_reply_without_id) (start svc_a)
     = (Raise (KeyError "id"),
        {| w_self := with_super (with_href (PyStr "https://x/sa-1") (super svc_a))
                                svc_a;
           w_net := [POST (PyStr "https://x/iam/v2/service-accounts")
                          (account_payload (PyStr "svc-a") (PyStr "Svc-A"))] |}).
Proof.
  split.
  - exact (proj1 (account_create_failures failing (start svc_a)
                    (or_intror (ex_intro _ "svc-a" eq_refl)))
                 (OtherError "ConnectionError") eq_refl).
  - exact (proj2 (account_create_failures (answering account_reply_without_id)
                    (start svc_a) (or_intror (ex_intro _ "svc-a" eq_refl)))
                 {| json := Ok account_reply_without_id |}
                 account_reply_without_id
                 (PyDict [("self", PyStr "https://x/sa-1")])
                 (PyStr "https://x/sa-1") (KeyError "id")
                 eq_refl eq_refl eq_refl eq_refl eq_refl).
Defined.

Lemma account_create_then_calls_witness :
  exists body metadata link,
    json account_response = Ok body
    /\ get_item body "metadata" = Ok metadata
    /\ get_item metadata "self" = Ok link
    /\ read (answering account_reply) created_account
       = (respond (answering account_reply) (w_net created_account) (GET link),
          {| w_self := w_self created_account;
             w_net := (w_net created_account ++ [GET link])%list |})
    /\ update (answering account_reply) (PyStr "new text") created_account
       = (respond (answering account_reply) (w_net created_account)
                  (PATCH link (PyDict [("description", PyStr "new text")])),
          {| w_self := w_self created_account;
             w_net := (w_net created_account
                       ++ [PATCH link
                             (PyDict [("description", PyStr "new text")])])%list |})
    /\ delete (answering account_reply) created_account
       = (respond (answering account_reply) (w_net created_account) (DELETE link),
          {| w_self := w_self created_account;
             w_net := (w_net created_account ++ [DELETE link])%list |}).
Proof.
  exact (account_create_then_calls (answering account_reply) (start svc_a) created_account
           account_response (PyStr "new text") eq_refl eq_refl).
Defined.

Lemma constructor_id_is_never_read_witness :
  set_from_read failing PyNone PyNone
                (start (new_ServiceAccount (PyStr "sa-1") PyNone PyNone))
  = (Ok tt, start (new_ServiceAccount (PyStr "sa-1") PyNone PyNone)).
Proof.
  exact (proj2 (constructor_id_is_never_read failing (PyStr "sa-1") PyNone PyNone [])
               eq_refl).
Defined.

End ConcreteSessions.
